(** * The schedule engine of server.py: jobs, triggers and device control

    A shallow embedding of the scheduling and device-control functions of
    [server.py] ([schedule_job], [execute_schedule], [_set_relay],
    [_set_strip], [update_schedule], [delete_schedule]) together with the
    Python primitives they rest on, followed by the properties that the
    specification states about them.

    Conventions.
    - A character is a code point from 0 to 255, and a [string] is a
      Python [str] all of whose code points are below 256 (ASCII and the
      Latin-1 supplement). A [str] with a code point from 256 up has no
      counterpart here, and no statement below speaks of one.
    - Integers bound to an SQL statement are SQLite's: outside the signed
      64-bit range the binding raises [OverflowError], which the table
      operations below leave out; the properties that bind an integer of
      the caller's say so in a hypothesis.
    - Python exceptions are values of [exn]; a computation is a function
      from the state of the world to an outcome and a new state, and the
      effects made before an exception is raised are kept.
    - The world holds the two SQLite tables, the job table of the
      background scheduler, the HTTP requests issued so far, the log, and
      the remote device, which answers a request as a function of all the
      requests it has received. *)

From stdpp Require Import gmap strings list fin_maps pretty sorting.
From Stdlib Require Import ZArith Lia Ascii String.

Local Open Scope string_scope.
Local Open Scope list_scope.
Local Open Scope Z_scope.

(** ** Python strings *)

Module Py.

(** The code points below 256 that [str.strip()] drops, those for which
    [str.isspace] holds: TAB, LF, VT, FF, CR (9 to 13), FS, GS, RS, US (28
    to 31), the space (32), NEL (133) and the no-break space (160). *)
Definition is_space (c : ascii) : bool :=
  let n := Z.of_N (N_of_ascii c) in
  ((9 <=? n) && (n <=? 13)) || ((28 <=? n) && (n <=? 32)) ||
  (n =? 133) || (n =? 160).

(** The code points below 256 that [int()] skips around a literal: the
    blanks of C, TAB, LF, VT, FF, CR and the space, and the two blanks
    above ASCII, NEL and the no-break space. FS, GS, RS and US are not
    among them. *)
Definition is_int_space (c : ascii) : bool :=
  let n := Z.of_N (N_of_ascii c) in
  ((9 <=? n) && (n <=? 13)) || (n =? 32) || (n =? 133) || (n =? 160).

Fixpoint lstrip_by (p : ascii -> bool) (s : string) : string :=
  match s with
  | String c s' => if p c then lstrip_by p s' else s
  | EmptyString => EmptyString
  end.

Fixpoint rstrip_by (p : ascii -> bool) (s : string) : string :=
  match s with
  | String c s' =>
      match rstrip_by p s' with
      | EmptyString => if p c then EmptyString else String c EmptyString
      | t => String c t
      end
  | EmptyString => EmptyString
  end.

(** [s.strip()] *)
Definition strip (s : string) : string := rstrip_by is_space (lstrip_by is_space s).

(** [s.lstrip(ch)] for a one-character argument: every leading [ch] goes. *)
Definition lstrip (ch : ascii) (s : string) : string :=
  lstrip_by (fun c => bool_decide (c = ch)) s.

(** [s.split(sep)] for a one-character separator. *)
Fixpoint split (sep : ascii) (s : string) : list string :=
  match s with
  | EmptyString => [EmptyString]
  | String c s' =>
      if bool_decide (c = sep) then EmptyString :: split sep s'
      else match split sep s' with
           | w :: ws => String c w :: ws
           | [] => [String c EmptyString]
           end
  end.

(** [s[i:j]] for constant bounds [0 <= i <= j]; short strings are cut. *)
Definition slice (i j : nat) (s : string) : string := substring i (j - i) s.

(** [sep.join(l)] *)
Definition join (sep : string) (l : list string) : string := String.concat sep l.

(** Value of a character as a digit, as [int] reads it in any base up to 36. *)
Definition digit_value (c : ascii) : option Z :=
  let n := Z.of_N (N_of_ascii c) in
  if (48 <=? n) && (n <=? 57) then Some (n - 48)
  else if (97 <=? n) && (n <=? 122) then Some (n - 87)
  else if (65 <=? n) && (n <=? 90) then Some (n - 55)
  else None.

(** The run of digits of an integer literal: digits of the base, single
    underscores between them, no underscore at the end. [prev_us] tells
    whether the character before was an underscore. *)
Fixpoint scan_digits (base : Z) (prev_us : bool) (acc : Z) (s : string) : option Z :=
  match s with
  | EmptyString => if prev_us then None else Some acc
  | String c s' =>
      if bool_decide (c = "_"%char) then
        if prev_us then None else scan_digits base true acc s'
      else
        match digit_value c with
        | Some d => if d <? base then scan_digits base false (acc * base + d) s' else None
        | None => None
        end
  end.

(** After the sign: base 16 accepts a [0x] or [0X] prefix, followed by at
    most one underscore. *)
Definition drop_prefix (base : Z) (s : string) : string :=
  match s with
  | String "0" (String x s') =>
      if (base =? 16) && (bool_decide (x = "x"%char) || bool_decide (x = "X"%char)) then
        match s' with
        | String "_" s'' => s''
        | _ => s'
        end
      else s
  | _ => s
  end.

(** Number of digits of a literal, its underscores left out. *)
Fixpoint digit_count (s : string) : Z :=
  match s with
  | EmptyString => 0
  | String c s' => (if bool_decide (c = "_"%char) then 0 else 1) + digit_count s'
  end.

(** [sys.int_max_str_digits], at its default: a decimal literal of more
    digits is refused (a base that is a power of two has no such limit). *)
Definition max_str_digits : Z := 4300.

Definition unsigned_literal (base : Z) (s : string) : option Z :=
  match drop_prefix base s with
  | EmptyString => None
  | String "_" _ => None
  | t => if (base =? 10) && (max_str_digits <? digit_count t) then None
         else scan_digits base false 0 t
  end.

(** [int(s, base)] on a string, for base 10 and base 16; [None] is Python's
    [ValueError]. Blanks around the literal are dropped and one sign is
    accepted. Below 256 the only decimal digits are [0] to [9]. *)
Definition int (base : Z) (s : string) : option Z :=
  match rstrip_by is_int_space (lstrip_by is_int_space s) with
  | String "+" t => unsigned_literal base t
  | String "-" t => Z.opp <$> unsigned_literal base t
  | t => unsigned_literal base t
  end.

(** [str(n)] for an integer, as an f-string prints it. *)
Definition str (n : Z) : string := pretty n.

End Py.

(** ** Exceptions and outcomes *)

(** How an HTTP call can fail: the subclasses of
    [requests.RequestException] that matter to a caller. *)
Inductive net_failure := Timeout | ConnectionError.

(** The exception classes that the modelled code can meet. Only
    [RequestException] is an instance of [requests.RequestException]; all
    of them are instances of [Exception]. *)
Inductive exn :=
  | ValueError
  | IndexError
  | KeyError
  | TypeError
  | JobLookupError
  | RequestException (f : net_failure).

Definition is_RequestException (e : exn) : bool :=
  match e with RequestException _ => true | _ => false end.

Definition is_Exception (e : exn) : bool := true.

Inductive result (A : Type) :=
  | Ret (a : A)
  | Raise (e : exn).
Arguments Ret {A} a.
Arguments Raise {A} e.

#[global] Instance result_ret : MRet result := fun A a => Ret a.
#[global] Instance result_bind : MBind result := fun A B f r =>
  match r with
  | Ret a => f a
  | Raise e => Raise e
  end.

(** [int(s)] and [int(s, 16)] as the code calls them. *)
Definition int10 (s : string) : result Z :=
  match Py.int 10 s with Some n => Ret n | None => Raise ValueError end.

Definition int16 (s : string) : result Z :=
  match Py.int 16 s with Some n => Ret n | None => Raise ValueError end.

(** [l[i]] on a Python list: a negative index counts from the end, and an
    index outside [-len, len) raises [IndexError]. *)
Definition getitem {A} (l : list A) (i : Z) : result A :=
  let n := Z.of_nat (List.length l) in
  let j := if i <? 0 then i + n else i in
  if (0 <=? j) && (j <? n) then
    match l !! Z.to_nat j with
    | Some x => Ret x
    | None => Raise IndexError
    end
  else Raise IndexError.

(** [a, b = l]: unpacking into exactly two names. *)
Definition unpack2 {A} (l : list A) : result (A * A) :=
  match l with
  | [a; b] => Ret (a, b)
  | _ => Raise ValueError
  end.

(** Truth value of an integer column. *)
Definition truthy (n : Z) : bool := negb (n =? 0).

(** ** Data *)

(** A row of table [schedules], as [dict(row)] gives it. *)
Record Schedule := mkSchedule {
  s_id : Z;
  s_name : string;
  s_time : string;
  s_days : string;
  s_action : string;
  s_relay : Z;
  s_strip : Z;
  s_brightness : Z;
  s_color : string;
  s_enabled : Z
}.

Inductive Weekday :=
  Monday | Tuesday | Wednesday | Thursday | Friday | Saturday | Sunday.

(** What [CronTrigger(day_of_week=..., hour=..., minute=...)] holds. *)
Record CronTrigger := mkCronTrigger {
  day_of_week : list Weekday;
  hour : Z;
  minute : Z
}.

(** A job of the scheduler; its function is always [execute_schedule] and
    [job_args] is the schedule id it is called with. *)
Record Job := mkJob {
  job_id : string;
  job_trigger : CronTrigger;
  job_args : Z
}.

Inductive param := PInt (n : Z) | PStr (s : string).

(** An outgoing [http_requests.get(url, params=..., timeout=...)]. *)
Record Request := mkRequest {
  url : string;
  params : list (string * param);
  timeout : Z
}.

(** What comes back: a response with its body text (whatever its status
    code, which the code never reads), or a transport failure. *)
Inductive Reply := Body (text : string) | Fails (f : net_failure).

Inductive Level := INFO | WARNING | ERROR.

Inductive LogArg :=
  | AInt (n : Z)
  | AStr (s : string)
  | AParams (p : list (string * param))
  | AExn (e : exn).

Record LogRecord := mkLog {
  levelname : Level;
  msg : string;
  args : list LogArg
}.

Record World := mkWorld {
  schedules : gmap Z Schedule;      (* table schedules, by primary key *)
  config : gmap string string;      (* table config *)
  running : bool;                   (* has scheduler.start() been called *)
  jobs : list Job;                  (* the scheduler's jobs; their order in
                                       the list has no meaning *)
  sent : list Request;              (* HTTP requests issued, oldest first *)
  logged : list LogRecord;          (* log records emitted, oldest first *)
  device : list Request -> Reply    (* the device: reply to the last of the
                                       requests issued so far *)
}.

Definition set_schedules (m : gmap Z Schedule) (w : World) : World :=
  mkWorld m (config w) (running w) (jobs w) (sent w) (logged w) (device w).
Definition set_jobs (l : list Job) (w : World) : World :=
  mkWorld (schedules w) (config w) (running w) l (sent w) (logged w) (device w).
Definition set_sent (l : list Request) (w : World) : World :=
  mkWorld (schedules w) (config w) (running w) (jobs w) l (logged w) (device w).
Definition set_logged (l : list LogRecord) (w : World) : World :=
  mkWorld (schedules w) (config w) (running w) (jobs w) (sent w) l (device w).

(** ** Computations *)

Definition M (A : Type) : Type := World -> result A * World.

#[global] Instance M_ret : MRet M := fun A a w => (Ret a, w).
#[global] Instance M_bind : MBind M := fun A B f c w =>
  match c w with
  | (Ret a, w') => f a w'
  | (Raise e, w') => (Raise e, w')
  end.

(** A pure step that may raise. *)
Definition lift {A} (r : result A) : M A := fun w => (r, w).

(** [try: body except <class>: handler] *)
Definition try_except {A} (body : M A) (caught : exn -> bool) (handler : exn -> M A) : M A :=
  fun w =>
    match body w with
    | (Ret a, w') => (Ret a, w')
    | (Raise e, w') => if caught e then handler e w' else (Raise e, w')
    end.

(** [pass] *)
Definition pass : M unit := mret tt.

Definition log_at (lv : Level) (m : string) (a : list LogArg) : M unit :=
  fun w => (Ret tt, set_logged (logged w ++ [mkLog lv m a]) w).

Definition log_info := log_at INFO.
Definition log_warning := log_at WARNING.
Definition log_error := log_at ERROR.

(** [http_requests.get(url, params=params, timeout=5)]: the request is
    issued, and the device's answer is its body or a [RequestException]. *)
Definition http_get (u : string) (p : list (string * param)) : M string :=
  fun w =>
    let reqs := sent w ++ [mkRequest u p 5] in
    match device w reqs with
    | Body text => (Ret text, set_sent reqs w)
    | Fails f => (Raise (RequestException f), set_sent reqs w)
    end.

(** ** The two tables

    The table [schedules] is a map from the id to the row, and a row holds
    values of the types of its columns. An id or an integer value given to
    one of the statements below is meant to be one that SQLite can hold,
    from [-2^63] to [2^63 - 1]: with another the binding raises
    [OverflowError] in Python before the statement runs, and that outcome
    is not among those of these definitions. *)

(** [SELECT * FROM schedules WHERE id = ?] then [fetchone()] *)
Definition select_schedule (sid : Z) : M (option Schedule) :=
  fun w => (Ret (schedules w !! sid), w).

(** The order of a table scan: by ascending id. *)
Definition by_rowid (x y : Z * Schedule) : Prop := x.1 <= y.1.

#[global] Instance by_rowid_dec x y : Decision (by_rowid x y) := decide (x.1 <= y.1).

(** The rows of the table, in the order of their ids. *)
Definition stored_rows (m : gmap Z Schedule) : list Schedule :=
  snd <$> merge_sort by_rowid (map_to_list m).

(** [SELECT * FROM schedules] then [fetchall()]: every row, by ascending
    id. *)
Definition select_all_schedules : M (list Schedule) :=
  fun w => (Ret (stored_rows (schedules w)), w).

(** [UPDATE schedules SET ... WHERE id = ?]: a row is rewritten only if it
    is there. *)
Definition update_row (sid : Z) (row : Schedule) : M unit :=
  fun w =>
    match schedules w !! sid with
    | Some _ => (Ret tt, set_schedules (<[sid := row]> (schedules w)) w)
    | None => (Ret tt, w)
    end.

(** [DELETE FROM schedules WHERE id = ?] *)
Definition delete_row (sid : Z) : M unit :=
  fun w => (Ret tt, set_schedules (delete sid (schedules w)) w).

(** [dict(row)]: [dict(None)] is a [TypeError]. *)
Definition dict {A} (row : option A) : result A :=
  match row with
  | Some r => Ret r
  | None => Raise TypeError
  end.

(** [data[key]] on the request's JSON object *)
Definition subscript {A} (field : option A) : result A :=
  match field with
  | Some v => Ret v
  | None => Raise KeyError
  end.

Definition get_config (key : string) : M (option string) :=
  fun w => (Ret (config w !! key), w).

(** ** The background scheduler

    The part of APScheduler's [BackgroundScheduler] and [CronTrigger] that
    the code calls, as the library documents it. *)

Definition has_id (jid : string) (j : Job) : bool := bool_decide (job_id j = jid).

Fixpoint remove_first (jid : string) (l : list Job) : option (list Job) :=
  match l with
  | [] => None
  | j :: l' => if has_id jid j then Some l' else (j ::.) <$> remove_first jid l'
  end.

Fixpoint replace_first (new : Job) (l : list Job) : option (list Job) :=
  match l with
  | [] => None
  | j :: l' => if has_id (job_id new) j then Some (new :: l')
               else (j ::.) <$> replace_first new l'
  end.

(** [scheduler.remove_job(job_id)]: the job goes, or [JobLookupError]. *)
Definition remove_job (jid : string) : M unit :=
  fun w =>
    match remove_first jid (jobs w) with
    | Some l => (Ret tt, set_jobs l w)
    | None => (Raise JobLookupError, w)
    end.

(** [scheduler.add_job(..., replace_existing=True)]: a running scheduler
    replaces the job that has this id, if any; one that has not been
    started queues the job as it comes. *)
Definition add_job (j : Job) : M unit :=
  fun w =>
    if running w then
      match replace_first j (jobs w) with
      | Some l => (Ret tt, set_jobs l w)
      | None => (Ret tt, set_jobs (jobs w ++ [j]) w)
      end
    else (Ret tt, set_jobs (jobs w ++ [j]) w).

(** The weekday names of a cron expression; [mon] is the first day. *)
Definition weekday_of_name (n : string) : result Weekday :=
  if bool_decide (n = "mon") then Ret Monday
  else if bool_decide (n = "tue") then Ret Tuesday
  else if bool_decide (n = "wed") then Ret Wednesday
  else if bool_decide (n = "thu") then Ret Thursday
  else if bool_decide (n = "fri") then Ret Friday
  else if bool_decide (n = "sat") then Ret Saturday
  else if bool_decide (n = "sun") then Ret Sunday
  else Raise ValueError.

(** [CronTrigger(day_of_week=names, hour=h, minute=m)] for a
    comma-separated list of day names: a [ValueError] for an unknown name,
    for an hour outside 0..23 and for a minute outside 0..59. *)
Definition new_CronTrigger (names : string) (h m : Z) : result CronTrigger :=
  dow ← mapM weekday_of_name (Py.split "," names);
  if (0 <=? h) && (h <=? 23) then
    if (0 <=? m) && (m <=? 59) then mret (mkCronTrigger dow h m)
    else Raise ValueError
  else Raise ValueError.

(** ** ESP32 control *)

Definition DAY_NAMES : list string := ["mon"; "tue"; "wed"; "thu"; "fri"; "sat"; "sun"].

Definition _set_relay (base_url : string) (turn_on : bool) : M unit :=
  try_except
    (text ← http_get (base_url +:+ "/relaystatus") [];
     let current := Py.strip text in
     let desired := if turn_on then "ON" else "OFF" in
     if bool_decide (current ≠ desired) then
       http_get (base_url +:+ "/relay") [];;
       log_info "Relay toggled to %s" [AStr desired]
     else
       log_info "Relay already %s" [AStr desired])
    is_RequestException
    (fun e => log_error "Relay control failed: %s" [AExn e]).

(** The [params] that [_set_strip] builds before it calls the device. *)
Definition strip_params (schedule : Schedule) : result (list (string * param)) :=
  if bool_decide (s_action schedule = "on") then
    let color := Py.lstrip "#" (s_color schedule) in
    r ← int16 (Py.slice 0 2 color);
    g_val ← int16 (Py.slice 2 4 color);
    b ← int16 (Py.slice 4 6 color);
    mret [("on", PInt 1);
          ("brightness", PInt (s_brightness schedule));
          ("r", PInt r);
          ("g", PInt g_val);
          ("b", PInt b);
          ("mode", PStr "solid")]
  else
    mret [("on", PInt 0)].

Definition _set_strip (base_url : string) (schedule : Schedule) : M unit :=
  try_except
    (params ← lift (strip_params schedule);
     http_get (base_url +:+ "/strip") params;;
     log_info "Strip set: %s" [AParams params])
    is_RequestException
    (fun e => log_error "Strip control failed: %s" [AExn e]).

Definition execute_schedule (schedule_id : Z) : M unit :=
  row ← select_schedule schedule_id;
  match row with
  | None => log_warning "Schedule %d not found" [AInt schedule_id]
  | Some schedule =>
      base_url ← get_config "esp32_url";
      match base_url with
      | None | Some EmptyString => log_error "ESP32 URL not configured" []
      | Some base_url =>
          log_info "Executing schedule '%s' (action=%s)"
                   [AStr (s_name schedule); AStr (s_action schedule)];;
          (if truthy (s_relay schedule)
           then _set_relay base_url (bool_decide (s_action schedule = "on"))
           else pass);;
          (if truthy (s_strip schedule)
           then _set_strip base_url schedule
           else pass)
      end
  end.

(** ** Scheduler *)

Definition job_id_of (sid : Z) : string := "schedule_" +:+ Py.str sid.

(** Lines 139 to 142 of [schedule_job]: the day names and the trigger, or
    the exception of the first step that fails. *)
Definition derive_trigger (schedule : Schedule) : result (string * CronTrigger) :=
  '(hour, minute) ← unpack2 (Py.split ":" (s_time schedule));
  day_nums ← mapM int10 (Py.split "," (s_days schedule));
  names ← mapM (getitem DAY_NAMES) day_nums;
  let day_names := Py.join "," names in
  h ← int10 hour;
  m ← int10 minute;
  trigger ← new_CronTrigger day_names h m;
  mret (day_names, trigger).

Definition schedule_job (schedule : Schedule) : M unit :=
  let job_id := job_id_of (s_id schedule) in
  '(day_names, trigger) ← lift (derive_trigger schedule);
  try_except (remove_job job_id) is_Exception (fun _ => pass);;
  if truthy (s_enabled schedule) then
    add_job (mkJob job_id trigger (s_id schedule));;
    log_info "Scheduled job '%s' at %s on %s"
             [AStr (s_name schedule); AStr (s_time schedule); AStr day_names]
  else pass.

Definition load_all_schedules : M unit :=
  rows ← select_all_schedules;
  mapM schedule_job rows;;
  mret tt.

(** ** API routes *)

(** The JSON object of a request body: a key is there or not, and a value
    that is there has the type of its column, a JSON string for a text
    column and a JSON integer for an integer column. A body with [null] or
    with a value of another type under one of these keys has no
    counterpart here. *)
Record Fields := mkFields {
  f_name : option string;
  f_time : option string;
  f_days : option string;
  f_action : option string;
  f_relay : option Z;
  f_strip : option Z;
  f_brightness : option Z;
  f_color : option string;
  f_enabled : option Z
}.

(** [PUT /api/schedules/<sid>]; the value is the schedule sent back. An
    exception that leaves the view is not handled by the code. *)
Definition update_schedule (sid : Z) (data : Fields) : M Schedule :=
  name ← lift (subscript (f_name data));
  time ← lift (subscript (f_time data));
  update_row sid
    (mkSchedule sid name time
       (default "0,1,2,3,4,5,6" (f_days data))
       (default "on" (f_action data))
       (default 1 (f_relay data))
       (default 1 (f_strip data))
       (default 255 (f_brightness data))
       (default "#ffffff" (f_color data))
       (default 1 (f_enabled data)));;
  row ← select_schedule sid;
  schedule ← lift (dict row);
  schedule_job schedule;;
  mret schedule.

(** [DELETE /api/schedules/<sid>] *)
Definition delete_schedule (sid : Z) : M unit :=
  delete_row sid;;
  try_except (remove_job (job_id_of sid)) is_Exception (fun _ => pass).

(** ** Observations used by the properties *)

(** An integer that SQLite can hold, and so that a statement can bind. *)
Definition in_int64 (n : Z) : Prop := - 2 ^ 63 <= n < 2 ^ 63.

(** Number of jobs in a job list that carry the id [jid]. *)
Fixpoint count_id (jid : string) (l : list Job) : nat :=
  match l with
  | [] => 0%nat
  | j :: l' => ((if has_id jid j then 1 else 0) + count_id jid l')%nat
  end.

(** Number of jobs registered under [jid] in a world. *)
Definition registered (jid : string) (w : World) : nat := count_id jid (jobs w).

(** What the request layer does to the job table: a reconcile after a
    create or an update, and the removal that goes with a delete. *)
Inductive Call :=
  | Reconcile (schedule : Schedule)
  | Remove (sid : Z).

Definition call (c : Call) : M unit :=
  match c with
  | Reconcile schedule => schedule_job schedule
  | Remove sid => delete_schedule sid
  end.

(** The world after a sequence of calls; a call that raises ends there (its
    request fails) and the next call finds the world it left. *)
Fixpoint after (cs : list Call) (w : World) : World :=
  match cs with
  | [] => w
  | c :: cs' => after cs' (call c w).2
  end.

(** A call whose id, if it binds one, can be bound. *)
Definition call_bindable (c : Call) : Prop :=
  match c with
  | Reconcile _ => True
  | Remove sid => in_int64 sid
  end.

(** The requests that a computation adds to those already issued. *)
Definition issued_by {A} (c : M A) (w : World) : list Request :=
  drop (List.length (sent w)) (sent (c w).2).

(** The three calls of the device protocol. *)
Definition status_call (base_url : string) : Request :=
  mkRequest (base_url +:+ "/relaystatus") [] 5.
Definition toggle_call (base_url : string) : Request :=
  mkRequest (base_url +:+ "/relay") [] 5.
Definition strip_call (base_url : string) (p : list (string * param)) : Request :=
  mkRequest (base_url +:+ "/strip") p 5.

(** Number of relay toggle calls among some requests. *)
Definition toggle_calls (base_url : string) (l : list Request) : nat :=
  List.length (List.filter (fun r => bool_decide (url r = base_url +:+ "/relay")) l).

(** What it means for the two scheduling columns to parse: the time gives
    two integers, and the days give names of [DAY_NAMES]. *)
Definition parsed_time (schedule : Schedule) : result (Z * Z) :=
  '(hour, minute) ← unpack2 (Py.split ":" (s_time schedule));
  h ← int10 hour;
  m ← int10 minute;
  mret (h, m).

Definition parsed_days (schedule : Schedule) : result (list string) :=
  day_nums ← mapM int10 (Py.split "," (s_days schedule));
  mapM (getitem DAY_NAMES) day_nums.

Definition fails {A} (r : result A) : Prop := exists e, r = Raise e.

(** The hexadecimal digits and their values, as the specification means
    them: [0] to [9], [a] to [f] and [A] to [F]. *)
Definition hex_table : list (ascii * Z) :=
  [("0", 0); ("1", 1); ("2", 2); ("3", 3); ("4", 4); ("5", 5); ("6", 6); ("7", 7);
   ("8", 8); ("9", 9); ("a", 10); ("b", 11); ("c", 12); ("d", 13); ("e", 14);
   ("f", 15); ("A", 10); ("B", 11); ("C", 12); ("D", 13); ("E", 14); ("F", 15)]%char.

Fixpoint assoc (c : ascii) (t : list (ascii * Z)) : option Z :=
  match t with
  | [] => None
  | (k, v) :: t' => if bool_decide (k = c) then Some v else assoc c t'
  end.

Definition hexval (c : ascii) : option Z := assoc c hex_table.

(** The parameters of a strip call that switches the strip on. *)
Definition solid (brightness r g b : Z) : list (string * param) :=
  [("on", PInt 1); ("brightness", PInt brightness);
   ("r", PInt r); ("g", PInt g); ("b", PInt b); ("mode", PStr "solid")].

(** The weekday of an index of the data model: 0 is Monday, 6 is Sunday. *)
Definition WEEK : list Weekday :=
  [Monday; Tuesday; Wednesday; Thursday; Friday; Saturday; Sunday].

Definition weekday_of_index (d : Z) : option Weekday :=
  if 0 <=? d then WEEK !! Z.to_nat d else None.

(** The rows for which lines 139 to 142 give a trigger: the time is two
    integers separated by one colon, an hour from 0 to 23 and a minute
    from 0 to 59, and the days are integers from -7 to 6 separated by
    commas. *)
Definition readable (schedule : Schedule) : Prop :=
  exists hour minute h m ds,
    Py.split ":" (s_time schedule) = [hour; minute] /\
    int10 hour = Ret h /\ 0 <= h <= 23 /\
    int10 minute = Ret m /\ 0 <= m <= 59 /\
    mapM int10 (Py.split "," (s_days schedule)) = Ret ds /\
    Forall (fun d => -7 <= d <= 6) ds.

(** The rows for which lines 114 to 128 give the parameters of a strip
    call: the action is not [on], or each of the three pairs cut from the
    colour after its leading [#]s is read by [int(., 16)]. *)
Definition decodable (schedule : Schedule) : Prop :=
  s_action schedule <> "on" \/
  exists r g b,
    int16 (Py.slice 0 2 (Py.lstrip "#" (s_color schedule))) = Ret r /\
    int16 (Py.slice 2 4 (Py.lstrip "#" (s_color schedule))) = Ret g /\
    int16 (Py.slice 4 6 (Py.lstrip "#" (s_color schedule))) = Ret b.

(** A request body whose integers can all be bound. *)
Definition bindable (data : Fields) : Prop :=
  in_int64 (default 1 (f_relay data)) /\
  in_int64 (default 1 (f_strip data)) /\
  in_int64 (default 255 (f_brightness data)) /\
  in_int64 (default 1 (f_enabled data)).

(** ** Sample data *)

(** A device whose every answer has the body [text]. *)
Definition device_saying (text : string) : list Request -> Reply := fun _ => Body text.

(** A device that cannot be reached. *)
Definition device_down : list Request -> Reply := fun _ => Fails Timeout.


Definition evening : Schedule :=
  mkSchedule 1 "Evening" "18:30" "0,1,2,3,4" "on" 1 1 128 "#112233" 1.

Definition evening_off : Schedule :=
  mkSchedule 1 "Evening" "18:30" "0,1,2,3,4" "off" 1 1 128 "#112233" 1.

(** The same schedule, disabled and with a time that does not split. *)
Definition evening_unparsed : Schedule :=
  mkSchedule 1 "Evening" "18h30" "0,1,2,3,4" "on" 1 1 128 "#112233" 0.


(** A request body that names a schedule and gives it a time. *)
Definition morning_fields : Fields :=
  mkFields (Some "Morning") (Some "08:00") None None None None None None None.

(** A world with the default configuration, the given rows, and no job. *)
Definition world_of (rows : gmap Z Schedule) (dev : list Request -> Reply) : World :=
  mkWorld rows {["esp32_url" := "http://192.168.1.100"]} false [] [] [] dev.

(** ** Start-up, configuration and the remaining routes *)

Definition set_config (m : gmap string string) (w : World) : World :=
  mkWorld (schedules w) m (running w) (jobs w) (sent w) (logged w) (device w).

(** [INSERT OR IGNORE INTO config (key, value) VALUES (?, ?)] *)
Definition insert_or_ignore_config (key value : string) : M unit :=
  fun w =>
    match config w !! key with
    | Some _ => (Ret tt, w)
    | None => (Ret tt, set_config (<[key := value]> (config w)) w)
    end.

(** [INSERT OR REPLACE INTO config (key, value) VALUES (?, ?)] *)
Definition insert_or_replace_config (key value : string) : M unit :=
  fun w => (Ret tt, set_config (<[key := value]> (config w)) w).

(** [init_db]. A world always has its two tables, empty or not, so the two
    [CREATE TABLE IF NOT EXISTS] change nothing; what is left is the
    default device URL. *)
Definition init_db : M unit :=
  insert_or_ignore_config "esp32_url" "http://192.168.1.100".

(** [GET /api/config] *)
Definition get_config_route : M (gmap string string) :=
  fun w => (Ret (config w), w).

(** [POST /api/config]; [data] is the items of the JSON object in order. *)
Definition save_config (data : list (string * string)) : M (list (string * string)) :=
  mapM (fun kv => insert_or_replace_config kv.1 kv.2) data;;
  mret data.

(** The values that [create_schedule] and [update_schedule] bind to their
    statement, as a row with the given id. *)
Definition row_of_fields (sid : Z) (name time : string) (data : Fields) : Schedule :=
  mkSchedule sid name time
    (default "0,1,2,3,4,5,6" (f_days data))
    (default "on" (f_action data))
    (default 1 (f_relay data))
    (default 1 (f_strip data))
    (default 255 (f_brightness data))
    (default "#ffffff" (f_color data))
    (default 1 (f_enabled data)).

(** [INSERT INTO schedules (...) VALUES (...)]. The id is chosen by SQLite
    ([AUTOINCREMENT]) and read back as [cur.lastrowid]; it is an argument
    here, [rowid], and SQLite never gives one that is in the table. *)
Definition insert_row (rowid : Z) (row : Schedule) : M Z :=
  fun w => (Ret rowid, set_schedules (<[rowid := row]> (schedules w)) w).

(** [POST /api/schedules], given the id that SQLite assigns; the value is
    the schedule sent back with status 201. *)
Definition create_schedule (rowid : Z) (data : Fields) : M Schedule :=
  name ← lift (subscript (f_name data));
  time ← lift (subscript (f_time data));
  lastrowid ← insert_row rowid (row_of_fields rowid name time data);
  row ← select_schedule lastrowid;
  schedule ← lift (dict row);
  schedule_job schedule;;
  mret schedule.

(** What [test_action] answers: [{"ok": true, "action": ...}], or the error
    object with status 400. *)
Inductive TestResponse :=
  | Ok200 (action : string)
  | Error400 (error : string).

(** [POST /api/test/<action>]. The dictionary that the view builds has the
    keys [action], [relay], [strip], [brightness] and [color] only; the
    other columns of the row given to [_set_strip] are blank here, and
    [_set_strip] reads none of them. *)
Definition test_action (action : string) (data : Fields) : M TestResponse :=
  base_url ← get_config "esp32_url";
  match base_url with
  | None | Some EmptyString => mret (Error400 "ESP32 URL not configured")
  | Some base_url =>
      let schedule :=
        mkSchedule 0 "" "" "" action
          (default 1 (f_relay data))
          (default 1 (f_strip data))
          (default 255 (f_brightness data))
          (default "#ffffff" (f_color data))
          0 in
      (if truthy (s_relay schedule)
       then _set_relay base_url (bool_decide (action = "on"))
       else pass);;
      (if truthy (s_strip schedule)
       then _set_strip base_url schedule
       else pass);;
      mret (Ok200 action)
  end.

(** ** Further observations *)

(** Everything but the requests issued and the log is the same. *)
Definition same_store (w w' : World) : Prop :=
  schedules w' = schedules w /\ config w' = config w /\
  running w' = running w /\ jobs w' = jobs w /\ device w' = device w.

(** A computation that leaves the store, the configuration, the jobs and
    the device as they are. *)
Definition keeps_store {A} (c : M A) : Prop := forall w, same_store w (c w).2.

(** Two worlds that a device step cannot tell apart: the same requests
    issued so far and the same device. *)
Definition same_line (w w' : World) : Prop :=
  sent w' = sent w /\ device w' = device w.

(** A computation whose outcome and requests depend on nothing else. *)
Definition line_only {A} (c : M A) : Prop :=
  forall w w', same_line w w' -> (c w').1 = (c w).1 /\ same_line (c w).2 (c w').2.

(** Lines 91 to 95 of [execute_schedule], which [test_action] repeats at
    lines 285 to 288: the relay step if the row asks for it, then the strip
    step if the row asks for it. *)
Definition device_steps (base_url : string) (schedule : Schedule) : M unit :=
  (if truthy (s_relay schedule)
   then _set_relay base_url (bool_decide (s_action schedule = "on"))
   else pass);;
  (if truthy (s_strip schedule)
   then _set_strip base_url schedule
   else pass).

(** The jobs of a job list that carry the id [jid]. *)
Definition jobs_with (jid : string) (l : list Job) : list Job :=
  List.filter (has_id jid) l.

(** Number of occurrences of a character in a string. *)
Fixpoint count_char (c : ascii) (s : string) : nat :=
  match s with
  | EmptyString => 0%nat
  | String x s' => ((if bool_decide (x = c) then 1 else 0) + count_char c s')%nat
  end.

(** [n] times the character [#]. *)
Fixpoint hashes (n : nat) : string :=
  match n with
  | O => EmptyString
  | S n' => String "#" (hashes n')
  end.

(** One [INSERT OR REPLACE] on the configuration table. *)
Definition put (m : gmap string string) (kv : string * string) : gmap string string :=
  <[kv.1 := kv.2]> m.

(** The store names every row by its own id. *)
Definition well_keyed (m : gmap Z Schedule) : Prop :=
  forall k s, m !! k = Some s -> s_id s = k.

(** More sample data. *)
Definition saturday_off : Schedule :=
  mkSchedule 2 "Weekend" "09:05" "-2,6" "off" 0 1 10 "#00ff00" 1.

Definition weekend_unparsed : Schedule :=
  mkSchedule 2 "Weekend" "9h05" "5,6" "off" 0 1 10 "#00ff00" 1.

Definition evening_fields : Fields :=
  mkFields (Some "Evening") (Some "18:30") (Some "0,1,2,3,4") (Some "on")
           (Some 1) (Some 1) (Some 128) (Some "#112233") (Some 1).

Definition unparsed_fields : Fields :=
  mkFields (Some "Evening") (Some "18h30") None None None None None None None.

(** * Properties *)

(** ** The Python primitives on sample inputs *)

Example int_of_decimal : Py.int 10 "18" = Some 18.
Proof. reflexivity. Qed.

Example int_drops_blanks : Py.int 10 " 07 " = Some 7.
Proof. reflexivity. Qed.

Example int_of_signed : Py.int 10 "-1" = Some (-1).
Proof. reflexivity. Qed.

Example int_with_underscore : Py.int 10 "1_0" = Some 10.
Proof. reflexivity. Qed.

Example int_of_empty : Py.int 10 "" = None.
Proof. reflexivity. Qed.

Example int_of_hex_pair : Py.int 16 "fF" = Some 255.
Proof. reflexivity. Qed.

Example int_of_bare_prefix : Py.int 16 "0x" = None.
Proof. reflexivity. Qed.

Example split_time : Py.split ":" "18:30" = ["18"; "30"].
Proof. reflexivity. Qed.

Example split_empty : Py.split "," "" = [""].
Proof. reflexivity. Qed.

Example split_trailing : Py.split ":" "1:2:" = ["1"; "2"; ""].
Proof. reflexivity. Qed.

Example strip_blanks : Py.strip "  ON " = "ON".
Proof. reflexivity. Qed.

Example lstrip_hashes : Py.lstrip "#" "##ff0000" = "ff0000".
Proof. reflexivity. Qed.

Example getitem_last : getitem DAY_NAMES (-1) = Ret "sun".
Proof. reflexivity. Qed.

Example getitem_out_of_range : getitem DAY_NAMES 7 = @Raise string IndexError.
Proof. reflexivity. Qed.

Example job_id_of_one : job_id_of 1 = "schedule_1".
Proof. reflexivity. Qed.

(** The scenario of the specification: the schedule is registered for the
    working days at 18:30, and when it fires on a device whose relay is
    off, the relay is toggled and the strip gets its colour. *)
Example evening_is_scheduled :
  jobs (schedule_job evening (world_of {[1 := evening]} (device_saying "OFF"))).2
  = [mkJob "schedule_1"
       (mkCronTrigger [Monday; Tuesday; Wednesday; Thursday; Friday] 18 30) 1].
Proof. reflexivity. Qed.

Example evening_fires :
  sent (execute_schedule 1 (world_of {[1 := evening]} (device_saying "OFF"))).2
  = [status_call "http://192.168.1.100";
     toggle_call "http://192.168.1.100";
     strip_call "http://192.168.1.100" (solid 128 17 34 51)].
Proof. reflexivity. Qed.

(** ** The job table *)

Section JobTable.

Implicit Types (l : list Job) (j : Job) (jid k : string) (w : World).

Lemma count_id_app k l l' :
  count_id k (l ++ l') = (count_id k l + count_id k l')%nat.
Proof.
  induction l as [|j l IH]; simpl; [done|]. rewrite IH. lia.
Qed.

Lemma remove_first_count jid l l' k :
  remove_first jid l = Some l' ->
  count_id k l' = (count_id k l - (if bool_decide (k = jid) then 1 else 0))%nat.
Proof.
  revert l'. induction l as [|j l IH]; intros l' Hrm; simpl in *; [done|].
  unfold has_id in *. case_bool_decide as Hj.
  - injection Hrm as <-. subst jid.
    destruct (decide (k = job_id j)) as [->|Hk].
    + rewrite !bool_decide_eq_true_2 by done. lia.
    + rewrite !bool_decide_eq_false_2 by congruence. lia.
  - destruct (remove_first jid l) as [l0|]; simpl in Hrm; [|done].
    injection Hrm as <-. simpl. unfold has_id. rewrite (IH l0 eq_refl).
    destruct (decide (k = jid)) as [->|Hk].
    + rewrite (bool_decide_eq_true_2 (jid = jid)) by done.
      rewrite (bool_decide_eq_false_2 (job_id j = jid)) by done.
      specialize (IH l0 eq_refl).
      rewrite (bool_decide_eq_true_2 (jid = jid)) in IH by done. lia.
    + rewrite (bool_decide_eq_false_2 (k = jid)) by done. lia.
Qed.

Lemma remove_first_None jid l :
  remove_first jid l = None -> count_id jid l = 0%nat.
Proof.
  induction l as [|j l IH]; simpl; [done|].
  destruct (has_id jid j); [done|].
  destruct (remove_first jid l); simpl; [done|]. intros _. by rewrite IH.
Qed.

Lemma replace_first_count j l l' k :
  replace_first j l = Some l' -> count_id k l' = count_id k l.
Proof.
  revert l'. induction l as [|j0 l IH]; intros l' Hrp; simpl in *; [done|].
  unfold has_id in *. destruct (bool_decide (job_id j0 = job_id j)) eqn:Hj.
  - apply bool_decide_eq_true in Hj. injection Hrp as <-. simpl.
    unfold has_id. by rewrite Hj.
  - destruct (replace_first j l) as [l0|]; simpl in Hrp; [|done].
    injection Hrp as <-. simpl. by rewrite (IH l0 eq_refl).
Qed.

(** Removing a job and ignoring [JobLookupError] never raises and takes one
    job of that id away, if there is one. *)
Lemma remove_quietly jid w :
  exists l', try_except (remove_job jid) is_Exception (fun _ => pass) w
               = (Ret tt, set_jobs l' w) /\
             forall k, count_id k l'
               = (count_id k (jobs w) - (if bool_decide (k = jid) then 1 else 0))%nat.
Proof.
  unfold try_except, remove_job.
  destruct (remove_first jid (jobs w)) as [l0|] eqn:Hrm.
  - exists l0. split; [done|]. intros k. by apply remove_first_count.
  - exists (jobs w). split; [by destruct w|].
    intros k. case_bool_decide; [subst k|lia].
    rewrite (remove_first_None _ _ Hrm). lia.
Qed.

(** Adding a job returns, leaves the other ids alone, and makes the id
    count one when it was free. *)
Lemma add_job_spec j w :
  exists l', add_job j w = (Ret tt, set_jobs l' w) /\
             (forall k, k <> job_id j -> count_id k l' = count_id k (jobs w)) /\
             (count_id (job_id j) (jobs w) = 0%nat -> count_id (job_id j) l' = 1%nat).
Proof.
  assert (forall k, count_id k (jobs w ++ [j])
            = (count_id k (jobs w) + (if bool_decide (job_id j = k) then 1 else 0))%nat)
    as Happ.
  { intros k. rewrite count_id_app. simpl. unfold has_id.
    destruct (bool_decide (job_id j = k)); lia. }
  unfold add_job. destruct (running w).
  - destruct (replace_first j (jobs w)) as [l0|] eqn:Hrp.
    + exists l0. split; [done|]. split.
      * intros k _. by apply (replace_first_count j).
      * intros H0. exfalso. clear Happ. revert l0 Hrp H0.
        induction (jobs w) as [|j0 l IH]; intros l0 Hrp H0; simpl in *; [done|].
        destruct (has_id (job_id j) j0); [done|].
        destruct (replace_first j l) as [l1|]; simpl in Hrp; [|done].
        by apply (IH l1).
    + exists (jobs w ++ [j]). split; [done|]. split.
      * intros k Hk. rewrite Happ. rewrite bool_decide_eq_false_2 by congruence. lia.
      * intros H0. rewrite Happ, H0. by rewrite bool_decide_eq_true_2.
  - exists (jobs w ++ [j]). split; [done|]. split.
    + intros k Hk. rewrite Happ. rewrite bool_decide_eq_false_2 by congruence. lia.
    + intros H0. rewrite Happ, H0. by rewrite bool_decide_eq_true_2.
Qed.

Lemma count_id_filter k l : count_id k l = List.length (List.filter (has_id k) l).
Proof.
  induction l as [|j l IH]; simpl; [done|].
  destruct (has_id k j); simpl; by rewrite IH.
Qed.

Lemma count_id_0_filter k l : count_id k l = 0%nat -> List.filter (has_id k) l = [].
Proof.
  rewrite count_id_filter. by destruct (List.filter (has_id k) l).
Qed.

(** On a free id [add_job] appends, whether the scheduler runs or not. *)
Lemma add_job_fresh j w :
  count_id (job_id j) (jobs w) = 0%nat ->
  add_job j w = (Ret tt, set_jobs (jobs w ++ [j]) w).
Proof.
  intros H0. unfold add_job. destruct (running w); [|done].
  destruct (replace_first j (jobs w)) as [l0|] eqn:Hrp; [|done].
  exfalso. revert l0 Hrp H0.
  induction (jobs w) as [|j0 l IH]; intros l0 Hrp H0; simpl in *; [done|].
  destruct (has_id (job_id j) j0); [done|].
  destruct (replace_first j l) as [l1|]; simpl in Hrp; [|done].
  by apply (IH l1).
Qed.

(** The jobs and the result of [schedule_job] when the trigger is derived. *)
Lemma schedule_job_derived s w names tr :
  derive_trigger s = Ret (names, tr) ->
  exists l1 l2,
    (forall k, count_id k l1
       = (count_id k (jobs w)
          - (if bool_decide (k = job_id_of (s_id s)) then 1 else 0))%nat) /\
    add_job (mkJob (job_id_of (s_id s)) tr (s_id s)) (set_jobs l1 w)
      = (Ret tt, set_jobs l2 (set_jobs l1 w)) /\
    (schedule_job s w).1 = Ret tt /\
    jobs (schedule_job s w).2 = (if truthy (s_enabled s) then l2 else l1).
Proof.
  intros Hd.
  destruct (remove_quietly (job_id_of (s_id s)) w) as (l1 & Hrm & Hc1).
  destruct (add_job_spec (mkJob (job_id_of (s_id s)) tr (s_id s)) (set_jobs l1 w))
    as (l2 & Hadd & _).
  exists l1, l2. split; [done|]. split; [done|].
  unfold schedule_job, mbind, M_bind, lift. rewrite Hd, Hrm.
  destruct (truthy (s_enabled s)); [|done].
  rewrite Hadd. done.
Qed.

Lemma schedule_job_raises s w e :
  derive_trigger s = Raise e -> schedule_job s w = (Raise e, w).
Proof.
  intros Hd. unfold schedule_job, mbind, M_bind, lift. by rewrite Hd.
Qed.

(** [schedule_job] keeps the count of every id at one or below. *)
Lemma schedule_job_at_most_one s w k :
  (registered k w <= 1)%nat -> (registered k (schedule_job s w).2 <= 1)%nat.
Proof.
  intros Hk. destruct (derive_trigger s) as [[names tr]|e] eqn:Hd.
  - destruct (schedule_job_derived s w names tr Hd) as (l1 & l2 & Hc1 & Hadd & _ & Hj).
    unfold registered in *. rewrite Hj.
    assert (count_id k l1 <= 1)%nat as Hl1 by (rewrite Hc1; lia).
    destruct (truthy (s_enabled s)); [|done].
    destruct (add_job_spec (mkJob (job_id_of (s_id s)) tr (s_id s)) (set_jobs l1 w))
      as (l2' & Hadd' & Hother & Hfresh).
    rewrite Hadd in Hadd'. injection Hadd' as Hl2.
    subst l2'.
    simpl in *. destruct (decide (k = job_id_of (s_id s))) as [->|Hne].
    + rewrite Hfresh; [done|]. rewrite Hc1.
      rewrite bool_decide_eq_true_2 by done. lia.
    + by rewrite Hother.
  - by rewrite (schedule_job_raises s w e Hd).
Qed.

Lemma delete_schedule_jobs sid w :
  (delete_schedule sid w).1 = Ret tt /\
  forall k, registered k (delete_schedule sid w).2
    = (registered k w - (if bool_decide (k = job_id_of sid) then 1 else 0))%nat.
Proof.
  unfold delete_schedule, mbind, M_bind, delete_row.
  destruct (remove_quietly (job_id_of sid)
              (set_schedules (delete sid (schedules w)) w)) as (l1 & -> & Hc1).
  split; [done|]. intros k. unfold registered. simpl. apply Hc1.
Qed.

Lemma call_at_most_one c w k :
  (registered k w <= 1)%nat -> (registered k (call c w).2 <= 1)%nat.
Proof.
  destruct c as [s|sid]; simpl.
  - apply schedule_job_at_most_one.
  - intros Hk. destruct (delete_schedule_jobs sid w) as [_ ->]. lia.
Qed.

Lemma after_at_most_one cs w k :
  (registered k w <= 1)%nat -> (registered k (after cs w) <= 1)%nat.
Proof.
  revert w. induction cs as [|c cs IH]; intros w Hk; simpl; [done|].
  apply IH. by apply call_at_most_one.
Qed.

(** After a reconcile that derives its trigger, the jobs under the
    schedule's id are the new job alone, or none when it is disabled. *)
Lemma schedule_job_jobs s w names tr :
  derive_trigger s = Ret (names, tr) ->
  (registered (job_id_of (s_id s)) w <= 1)%nat ->
  (schedule_job s w).1 = Ret tt /\
  List.filter (has_id (job_id_of (s_id s))) (jobs (schedule_job s w).2)
    = (if truthy (s_enabled s) then [mkJob (job_id_of (s_id s)) tr (s_id s)] else []).
Proof.
  intros Hd Hk.
  destruct (schedule_job_derived s w names tr Hd) as (l1 & l2 & Hc1 & Hadd & Hret & Hj).
  split; [done|]. rewrite Hj.
  assert (count_id (job_id_of (s_id s)) l1 = 0%nat) as H0.
  { rewrite Hc1. rewrite bool_decide_eq_true_2 by done. unfold registered in Hk. lia. }
  destruct (truthy (s_enabled s)).
  - rewrite add_job_fresh in Hadd by done. injection Hadd as Hl2.
    subst l2.
    rewrite List.filter_app, (count_id_0_filter _ _ H0). simpl.
    unfold has_id. simpl. by rewrite bool_decide_eq_true_2.
  - by apply count_id_0_filter.
Qed.

End JobTable.

(** ** Reading the time and the days *)

Section Reading.

Lemma split_nonempty sep t : Py.split sep t <> [].
Proof.
  destruct t as [|c t]; simpl; [done|].
  destruct (bool_decide (c = sep)); [done|]. by destruct (Py.split sep t).
Qed.

Lemma mapM_result_length {A B} (f : A -> result B) (l : list A) (k : list B) :
  mapM f l = Ret k -> List.length k = List.length l.
Proof.
  revert k. induction l as [|x l IH]; intros k; simpl.
  - by intros [= <-].
  - unfold mbind, result_bind. destruct (f x) as [y|]; [|done].
    destruct (mapM f l) as [k'|]; [|done]. intros [= <-]. simpl.
    by rewrite (IH k' eq_refl).
Qed.

Lemma mapM_result_cons {A B} (f : A -> result B) (x : A) (l : list A) :
  mapM f (x :: l)
  = match f x with
    | Ret y => match mapM f l with
               | Ret k => Ret (y :: k)
               | Raise e => Raise e
               end
    | Raise e => Raise e
    end.
Proof. reflexivity. Qed.

(** One index: its name in [DAY_NAMES], the weekday that the trigger reads
    from that name, and how the name splits off a comma-separated list. *)
Lemma day_name_of_index d wd :
  weekday_of_index d = Some wd ->
  exists n, getitem DAY_NAMES d = Ret n /\ weekday_of_name n = Ret wd /\
            Py.split "," n = [n] /\
            forall rest, Py.split "," (n +:+ String "," rest) = n :: Py.split "," rest.
Proof.
  unfold weekday_of_index. destruct (0 <=? d) eqn:Hd; [|done].
  apply Z.leb_le in Hd. intros Hwd.
  assert (Z.to_nat d < 7)%nat as Hlt by (apply lookup_lt_Some in Hwd; exact Hwd).
  assert (d = 0 \/ d = 1 \/ d = 2 \/ d = 3 \/ d = 4 \/ d = 5 \/ d = 6)
    as Hcases by lia.
  destruct Hcases as [->|[->|[->|[->|[->|[->| ->]]]]]];
    simpl in Hwd; injection Hwd as <-; eexists;
    (split; [reflexivity|split; [reflexivity|split; [reflexivity|]]]);
    intros rest; reflexivity.
Qed.

(** A list of indices: the names, joined with commas, are read back by the
    trigger as the weekdays of the indices, in order. *)
Lemma day_names_of_indices ds wds :
  ds <> [] ->
  mapM weekday_of_index ds = Some wds ->
  exists names,
    mapM (getitem DAY_NAMES) ds = Ret names /\
    mapM weekday_of_name (Py.split "," (Py.join "," names)) = Ret wds.
Proof.
  revert wds. induction ds as [|d ds IH]; intros wds Hne Hm; [done|].
  simpl in Hm. unfold mbind, option_bind in Hm.
  destruct (weekday_of_index d) as [wd|] eqn:Hd; [|done].
  destruct (mapM weekday_of_index ds) as [wds'|] eqn:Hds; [|done].
  injection Hm as <-.
  destruct (day_name_of_index d wd Hd) as (n & Hget & Hname & Hone & Hsplit).
  destruct ds as [|d' ds'].
  - simpl in Hds. injection Hds as <-. exists [n]. split.
    + by rewrite mapM_result_cons, Hget.
    + unfold Py.join. simpl String.concat. rewrite Hone.
      by rewrite mapM_result_cons, Hname.
  - destruct (IH wds' ltac:(done) eq_refl) as (names & Hnames & Hread).
    exists (n :: names). split.
    + by rewrite mapM_result_cons, Hget, Hnames.
    + assert (exists n' names', names = n' :: names') as (n' & names' & ->).
      { apply mapM_result_length in Hnames. destruct names; [done|]. by eexists _, _. }
      unfold Py.join in *.
      change (String.concat "," (n :: n' :: names'))
        with (n +:+ String "," (String.concat "," (n' :: names'))).
      rewrite Hsplit.
      by rewrite mapM_result_cons, Hname, Hread.
Qed.

Lemma getitem_DAY_NAMES d :
  (-7 <= d <= 6 ->
     getitem DAY_NAMES d = getitem DAY_NAMES (d mod 7) /\
     exists wd, weekday_of_index (d mod 7) = Some wd) /\
  (~ (-7 <= d <= 6) -> getitem DAY_NAMES d = Raise IndexError).
Proof.
  split.
  - intros Hd.
    assert (d = -7 \/ d = -6 \/ d = -5 \/ d = -4 \/ d = -3 \/ d = -2 \/ d = -1 \/
            d = 0 \/ d = 1 \/ d = 2 \/ d = 3 \/ d = 4 \/ d = 5 \/ d = 6) as Hc by lia.
    repeat (destruct Hc as [->|Hc]; [split; [reflexivity|by eexists]|]).
    subst d. split; [reflexivity|by eexists].
  - intros Hd. unfold getitem.
    change (Z.of_nat (List.length DAY_NAMES)) with 7.
    destruct (d <? 0) eqn:Hneg.
    + apply Z.ltb_lt in Hneg.
      assert ((0 <=? d + 7) && (d + 7 <? 7) = false) as -> by lia. done.
    + apply Z.ltb_ge in Hneg.
      assert ((0 <=? d) && (d <? 7) = false) as -> by lia. done.
Qed.

Lemma getitem_raises {A} (l : list A) d e : getitem l d = Raise e -> e = IndexError.
Proof.
  unfold getitem. destruct (_ && _); [|by intros [= <-]].
  destruct (l !! _); [done|by intros [= <-]].
Qed.

(** Names for a list of day numbers within the bounds. *)
Lemma mapM_getitem_mod ds :
  Forall (fun d => -7 <= d <= 6) ds ->
  mapM (getitem DAY_NAMES) ds = mapM (getitem DAY_NAMES) ((fun d => d mod 7) <$> ds).
Proof.
  induction 1 as [|d ds Hd _ IH]; [done|].
  rewrite fmap_cons, !mapM_result_cons.
  destruct (getitem_DAY_NAMES d) as [Hin _]. destruct (Hin Hd) as [-> _].
  by rewrite IH.
Qed.

(** One number out of the bounds makes the names fail with [IndexError]. *)
Lemma mapM_getitem_out ds :
  Exists (fun d => ~ (-7 <= d <= 6)) ds ->
  mapM (getitem DAY_NAMES) ds = Raise IndexError.
Proof.
  induction 1 as [d ds Hd|d ds _ IH]; rewrite mapM_result_cons.
  - destruct (getitem_DAY_NAMES d) as [_ Hout]. by rewrite (Hout Hd).
  - destruct (getitem DAY_NAMES d) as [n|e] eqn:Hg.
    + by rewrite IH.
    + by rewrite (getitem_raises _ _ _ Hg).
Qed.

(** The trigger, once time and days are read. *)
Lemma derive_trigger_read s hour minute h m ds names wds :
  Py.split ":" (s_time s) = [hour; minute] ->
  int10 hour = Ret h -> int10 minute = Ret m ->
  0 <= h <= 23 -> 0 <= m <= 59 ->
  mapM int10 (Py.split "," (s_days s)) = Ret ds ->
  mapM (getitem DAY_NAMES) ds = Ret names ->
  mapM weekday_of_name (Py.split "," (Py.join "," names)) = Ret wds ->
  derive_trigger s = Ret (Py.join "," names, mkCronTrigger wds h m).
Proof.
  intros Ht Hh Hm Hhr Hmr Hds Hnames Hread.
  unfold derive_trigger. rewrite Ht. simpl unpack2.
  unfold mbind at 1, result_bind at 1. rewrite Hds.
  unfold mbind at 1, result_bind at 1. rewrite Hnames.
  unfold mbind at 1, result_bind at 1. rewrite Hh.
  unfold mbind at 1, result_bind at 1. rewrite Hm.
  unfold mbind at 1, result_bind at 1.
  unfold new_CronTrigger. unfold mbind at 1, result_bind at 1. rewrite Hread.
  assert ((0 <=? h) && (h <=? 23) = true) as -> by lia.
  assert ((0 <=? m) && (m <=? 59) = true) as -> by lia.
  reflexivity.
Qed.

Lemma mapM_weekday_mod ds :
  Forall (fun d => -7 <= d <= 6) ds ->
  exists wds, mapM weekday_of_index ((fun d => d mod 7) <$> ds) = Some wds.
Proof.
  induction 1 as [|d ds Hd _ [wds IH]]; [by exists []|].
  destruct (getitem_DAY_NAMES d) as [Hin _]. destruct (Hin Hd) as [_ [wd Hwd]].
  exists (wd :: wds). rewrite fmap_cons.
  change (mapM weekday_of_index (d mod 7 :: ((fun d => d mod 7) <$> ds)))
    with (y ← weekday_of_index (d mod 7);
          k ← mapM weekday_of_index ((fun d => d mod 7) <$> ds); mret (y :: k)).
  by rewrite Hwd, IH.
Qed.

Lemma mapM_getitem_in ds names :
  mapM (getitem DAY_NAMES) ds = Ret names -> Forall (fun d => -7 <= d <= 6) ds.
Proof.
  intros Hnames. destruct (decide (Forall (fun d => -7 <= d <= 6) ds)) as [|Hno]; [done|].
  apply not_Forall_Exists in Hno; [|apply _].
  rewrite (mapM_getitem_out ds) in Hnames; [discriminate Hnames|].
  eapply Exists_impl; [exact Hno|]. by intros d Hd.
Qed.

(** The rows that give a trigger are the readable ones. *)
Lemma derive_trigger_readable s :
  (exists nt, derive_trigger s = Ret nt) <-> readable s.
Proof.
  split.
  - intros [nt Hnt]. unfold derive_trigger in Hnt.
    destruct (Py.split ":" (s_time s)) as [|hour [|minute [|x l]]] eqn:Ht;
      try discriminate Hnt.
    simpl unpack2 in Hnt. unfold mbind at 1, result_bind at 1 in Hnt.
    unfold mbind at 1, result_bind at 1 in Hnt.
    destruct (mapM int10 (Py.split "," (s_days s))) as [ds|e] eqn:Hds;
      [|discriminate Hnt].
    unfold mbind at 1, result_bind at 1 in Hnt.
    destruct (mapM (getitem DAY_NAMES) ds) as [names|e] eqn:Hnames;
      [|discriminate Hnt].
    unfold mbind at 1, result_bind at 1 in Hnt.
    destruct (int10 hour) as [h|e] eqn:Hh; [|discriminate Hnt].
    unfold mbind at 1, result_bind at 1 in Hnt.
    destruct (int10 minute) as [m|e] eqn:Hm; [|discriminate Hnt].
    unfold mbind at 1, result_bind at 1 in Hnt.
    unfold new_CronTrigger in Hnt. unfold mbind at 1, result_bind at 1 in Hnt.
    destruct (mapM weekday_of_name _) as [wds|e]; [|discriminate Hnt].
    destruct ((0 <=? h) && (h <=? 23)) eqn:Hhr; [|discriminate Hnt].
    destruct ((0 <=? m) && (m <=? 59)) eqn:Hmr; [|discriminate Hnt].
    exists hour, minute, h, m, ds.
    split; [done|]. split; [done|]. split; [lia|]. split; [done|]. split; [lia|].
    split; [done|]. by apply (mapM_getitem_in ds names).
  - intros (hour & minute & h & m & ds & Ht & Hh & Hhr & Hm & Hmr & Hds & Hrange).
    destruct (mapM_weekday_mod ds Hrange) as [wds Hwds].
    assert (ds <> []) as Hne.
    { apply mapM_result_length in Hds. intros ->.
      by destruct (Py.split "," (s_days s)) eqn:Hsp;
        [apply split_nonempty in Hsp|]. }
    assert ((fun d => d mod 7) <$> ds <> []) as Hne' by (by destruct ds).
    destruct (day_names_of_indices _ wds Hne' Hwds) as (names & Hnames & Hread).
    rewrite <- (mapM_getitem_mod ds Hrange) in Hnames.
    eexists. by apply (derive_trigger_read s hour minute h m ds names wds).
Qed.

(** What the derivation raises. *)
Lemma derive_trigger_raises s e :
  derive_trigger s = Raise e -> e = ValueError \/ e = IndexError.
Proof.
  assert (forall l e0, mapM int10 l = Raise e0 -> e0 = ValueError) as Hints.
  { induction l as [|x l IH]; intros e0; [done|]. rewrite mapM_result_cons.
    unfold int10 at 1. destruct (Py.int 10 x); [|by intros [= <-]].
    destruct (mapM int10 l) as [k|e1]; [done|]. intros [= <-]. by apply IH. }
  assert (forall l e0, mapM (getitem DAY_NAMES) l = Raise e0 -> e0 = IndexError)
    as Hnames.
  { induction l as [|x l IH]; intros e0; [done|]. rewrite mapM_result_cons.
    destruct (getitem DAY_NAMES x) as [n|e1] eqn:Hg.
    - destruct (mapM (getitem DAY_NAMES) l) as [k|e2]; [done|].
      intros [= <-]. by apply IH.
    - intros [= <-]. by apply (getitem_raises _ _ _ Hg). }
  assert (forall l e0, mapM weekday_of_name l = Raise e0 -> e0 = ValueError) as Hwd.
  { induction l as [|x l IH]; intros e0; [done|]. rewrite mapM_result_cons.
    destruct (weekday_of_name x) as [n|e1] eqn:Hg.
    - destruct (mapM weekday_of_name l) as [k|e2]; [done|].
      intros [= <-]. by apply IH.
    - intros [= <-]. unfold weekday_of_name in Hg.
      repeat case_bool_decide; congruence. }
  intros Hd. unfold derive_trigger in Hd.
  destruct (Py.split ":" (s_time s)) as [|hour [|minute [|x l]]];
    try (injection Hd as <-; by left).
  simpl unpack2 in Hd. unfold mbind at 1, result_bind at 1 in Hd.
  unfold mbind at 1, result_bind at 1 in Hd.
  destruct (mapM int10 (Py.split "," (s_days s))) as [ds|e0] eqn:Hds.
  2: { injection Hd as <-. left. by apply (Hints _ _ Hds). }
  unfold mbind at 1, result_bind at 1 in Hd.
  destruct (mapM (getitem DAY_NAMES) ds) as [names|e0] eqn:Hn.
  2: { injection Hd as <-. right. by apply (Hnames _ _ Hn). }
  unfold mbind at 1, result_bind at 1 in Hd.
  unfold int10 at 1 in Hd. destruct (Py.int 10 hour) as [h|];
    [|injection Hd as <-; by left].
  unfold mbind at 1, result_bind at 1 in Hd.
  unfold int10 at 1 in Hd. destruct (Py.int 10 minute) as [m|];
    [|injection Hd as <-; by left].
  unfold mbind at 1, result_bind at 1 in Hd.
  unfold new_CronTrigger in Hd. unfold mbind at 1, result_bind at 1 in Hd.
  destruct (mapM weekday_of_name _) as [wds|e0] eqn:Hw.
  2: { injection Hd as <-. left. by apply (Hwd _ _ Hw). }
  destruct ((0 <=? h) && (h <=? 23)); [|injection Hd as <-; by left].
  destruct ((0 <=? m) && (m <=? 59)); [|injection Hd as <-; by left].
  discriminate Hd.
Qed.

(** A row that is not readable makes [schedule_job] raise and change
    nothing. *)
Lemma schedule_job_unreadable s w :
  ~ readable s ->
  exists e, schedule_job s w = (Raise e, w) /\ (e = ValueError \/ e = IndexError).
Proof.
  intros Hno. destruct (derive_trigger s) as [nt|e] eqn:Hd.
  - exfalso. apply Hno. apply derive_trigger_readable. by exists nt.
  - exists e. split; [by apply schedule_job_raises|].
    by apply (derive_trigger_raises s).
Qed.

(** The rows whose strip parameters can be built are the decodable ones. *)
Lemma strip_params_decodable s :
  (exists p, strip_params s = Ret p) <-> decodable s.
Proof.
  unfold decodable, strip_params. case_bool_decide as Hon.
  - unfold mbind, result_bind. split.
    + intros [p Hp]. right.
      destruct (int16 (Py.slice 0 2 _)) as [r|]; [|discriminate Hp].
      destruct (int16 (Py.slice 2 4 _)) as [g|]; [|discriminate Hp].
      destruct (int16 (Py.slice 4 6 _)) as [b|]; [|discriminate Hp].
      by exists r, g, b.
    + intros [Hoff|(r & g & b & -> & -> & ->)]; [done|]. by eexists.
  - split; [intros _; by left|]. intros _. by eexists.
Qed.

End Reading.

(** ** Reconciling *)

(** C1, as the code has it. Whatever calls are made, an id that had at most
    one job keeps at most one. A reconcile of a readable schedule, one
    whose time is H:M with an hour from 0 to 23 and a minute from 0 to 59
    and whose days are integers from -7 to 6, returns; with [enabled] true
    it leaves exactly one job under the schedule's id, namely the one with
    the trigger just derived, and so does a second reconcile in a row;
    with [enabled] false it leaves none. A reconcile of a schedule that is
    not readable raises and leaves the world as it was. A delete, of an id
    that SQLite can hold, returns and leaves no job under the id. *)
Theorem one_job_per_schedule :
  (forall cs w jid,
      Forall call_bindable cs ->
      (registered jid w <= 1)%nat -> (registered jid (after cs w) <= 1)%nat) /\
  (forall s w,
      readable s ->
      (registered (job_id_of (s_id s)) w <= 1)%nat ->
      let jid := job_id_of (s_id s) in
      let w1 := (schedule_job s w).2 in
      let w2 := (schedule_job s w1).2 in
      exists names tr,
        derive_trigger s = Ret (names, tr) /\
        (schedule_job s w).1 = Ret tt /\
        (truthy (s_enabled s) = true ->
           registered jid w1 = 1%nat /\
           List.filter (has_id jid) (jobs w1) = [mkJob jid tr (s_id s)] /\
           registered jid w2 = 1%nat) /\
        (truthy (s_enabled s) = false -> registered jid w1 = 0%nat)) /\
  (forall s w, ~ readable s -> exists e, schedule_job s w = (Raise e, w)) /\
  (forall sid w,
      in_int64 sid ->
      (registered (job_id_of sid) w <= 1)%nat ->
      (delete_schedule sid w).1 = Ret tt /\
      registered (job_id_of sid) (delete_schedule sid w).2 = 0%nat).
Proof.
  split; [|split; [|split]].
  - intros cs w jid _. apply after_at_most_one.
  - intros s w Hread Hk jid w1 w2.
    apply derive_trigger_readable in Hread as [[names tr] Hd].
    exists names, tr. split; [done|].
    destruct (schedule_job_jobs s w names tr Hd Hk) as [Hret Hjobs].
    split; [done|]. split.
    + intros Hen. rewrite Hen in Hjobs.
      assert (registered jid w1 = 1%nat) as H1.
      { unfold registered. rewrite count_id_filter. subst jid w1. by rewrite Hjobs. }
      split; [done|]. split; [done|].
      assert (registered (job_id_of (s_id s)) w1 <= 1)%nat as Hk1 by (subst jid; lia).
      destruct (schedule_job_jobs s w1 names tr Hd Hk1) as [_ Hjobs2].
      rewrite Hen in Hjobs2.
      unfold registered. rewrite count_id_filter. subst jid w2. by rewrite Hjobs2.
    + intros Hen. rewrite Hen in Hjobs.
      unfold registered. rewrite count_id_filter. subst jid w1. by rewrite Hjobs.
  - intros s w Hno. destruct (schedule_job_unreadable s w Hno) as (e & He & _).
    by exists e.
  - intros sid w _ Hk. destruct (delete_schedule_jobs sid w) as [Hret ->].
    split; [done|]. rewrite bool_decide_eq_true_2 by done. lia.
Qed.

Lemma one_job_per_schedule_witness :
  let w := world_of {[1 := evening]} device_down in
  (registered "schedule_1"
     (after [Reconcile evening; Reconcile evening; Remove 1; Reconcile evening] w)
   <= 1)%nat /\
  registered "schedule_1" (schedule_job evening w).2 = 1%nat /\
  registered "schedule_1" (delete_schedule 1 (schedule_job evening w).2).2 = 0%nat.
Proof.
  intros w.
  destruct one_job_per_schedule as (Hinv & Hrec & _ & Hdel).
  assert (registered "schedule_1" w <= 1)%nat as H0 by (vm_compute; lia).
  assert (in_int64 1) as H64
    by (unfold in_int64; change (2 ^ 63) with 9223372036854775808; lia).
  assert (readable evening) as Hread.
  { exists "18", "30", 18, 30, [0; 1; 2; 3; 4].
    split; [reflexivity|]. split; [reflexivity|]. split; [lia|].
    split; [reflexivity|]. split; [lia|]. split; [reflexivity|].
    repeat constructor; lia. }
  assert (job_id_of 1 = "schedule_1") as Hid by (vm_compute; reflexivity).
  pose proof (Hrec evening w Hread) as Hr.
  simpl s_id in Hr. rewrite Hid in Hr.
  destruct (Hr H0) as (names & tr & _ & _ & Hen & _).
  destruct (Hen eq_refl) as (H1 & _).
  split; [|split].
  - apply Hinv; [|exact H0].
    repeat (constructor; [first [exact I | exact H64]|]). constructor.
  - exact H1.
  - pose proof (Hdel 1 (schedule_job evening w).2 H64) as Hd1.
    rewrite Hid in Hd1. apply Hd1. rewrite H1. lia.
Defined.

(** C1 as it is worded fails on a record whose time does not parse: the
    reconcile of the disabled record raises and the job stays. *)
Lemma disabled_unparsed_keeps_job :
  ~ (forall s w,
       (registered (job_id_of (s_id s)) w <= 1)%nat ->
       truthy (s_enabled s) = false ->
       registered (job_id_of (s_id s)) (schedule_job s w).2 = 0%nat).
Proof.
  intros H.
  specialize (H evening_unparsed
                (schedule_job evening (world_of {[1 := evening]} device_down)).2).
  assert (registered (job_id_of (s_id evening_unparsed))
            (schedule_job evening_unparsed
               (schedule_job evening (world_of {[1 := evening]} device_down)).2).2
          = 1%nat) as H1 by (vm_compute; reflexivity).
  rewrite H in H1; [discriminate H1 | vm_compute; lia | reflexivity].
Qed.

(** C10. [schedule_job] derives the trigger before it touches the job
    table: when the derivation raises, and it does as soon as the time or
    the days fail to parse, the call raises the same exception and leaves
    the world, the registered jobs with it, as it was. *)
Theorem schedule_job_raises_before_removal (s : Schedule) (w : World) :
  (forall e, derive_trigger s = Raise e ->
     schedule_job s w = (Raise e, w) /\ jobs (schedule_job s w).2 = jobs w) /\
  (fails (parsed_time s) \/ fails (parsed_days s) ->
     exists e, derive_trigger s = Raise e /\ schedule_job s w = (Raise e, w)) /\
  (~ readable s ->
     exists e, derive_trigger s = Raise e /\ schedule_job s w = (Raise e, w) /\
               jobs (schedule_job s w).2 = jobs w).
Proof.
  split; [|split].
  - intros e Hd. by rewrite (schedule_job_raises s w e Hd).
  - intros Hfail.
    assert (exists e, derive_trigger s = Raise e) as [e He].
    { unfold derive_trigger, parsed_time, parsed_days, fails, mbind, result_bind in *.
      destruct (unpack2 (Py.split ":" (s_time s))) as [[hour minute]|e0]; [|by eexists].
      destruct (mapM int10 (Py.split "," (s_days s))) as [day_nums|e1];
        [|by eexists].
      destruct (mapM (getitem DAY_NAMES) day_nums) as [names|e2]; [|by eexists].
      destruct (int10 hour) as [h|e3]; [|by eexists].
      destruct (int10 minute) as [m|e4]; [|by eexists].
      destruct Hfail as [[e Hf]|[e Hf]]; discriminate Hf. }
    exists e. split; [done|]. by apply schedule_job_raises.
  - intros Hno. destruct (derive_trigger s) as [nt|e] eqn:Hd.
    + exfalso. apply Hno. apply derive_trigger_readable. by exists nt.
    + exists e. split; [done|]. by rewrite (schedule_job_raises s w e Hd).
Qed.

Lemma schedule_job_raises_before_removal_witness :
  let w := (schedule_job evening (world_of {[1 := evening]} device_down)).2 in
  schedule_job evening_unparsed w = (Raise ValueError, w) /\
  jobs (schedule_job evening_unparsed w).2 = jobs w /\
  registered "schedule_1" w = 1%nat.
Proof.
  intros w.
  destruct (schedule_job_raises_before_removal evening_unparsed w) as [Hraise _].
  destruct (Hraise ValueError eq_refl) as [H1 H2].
  split; [exact H1|]. split; [exact H2|reflexivity].
Defined.

(** ** Firing *)

Section Firing.

Implicit Types (w : World) (s : Schedule) (base_url : string).

Lemma relaystatus_is_not_relay base_url :
  base_url +:+ "/relaystatus" <> base_url +:+ "/relay".
Proof.
  induction base_url as [|c t IH]; simpl; [discriminate|].
  intros H. injection H as H. by apply IH.
Qed.

Lemma toggle_calls_status base_url : toggle_calls base_url [status_call base_url] = 0%nat.
Proof.
  unfold toggle_calls, status_call. simpl.
  rewrite bool_decide_eq_false_2; [done|]. apply relaystatus_is_not_relay.
Qed.

Lemma toggle_calls_status_toggle base_url :
  toggle_calls base_url [status_call base_url; toggle_call base_url] = 1%nat.
Proof.
  unfold toggle_calls, status_call, toggle_call. simpl.
  rewrite bool_decide_eq_false_2 by apply relaystatus_is_not_relay.
  by rewrite bool_decide_eq_true_2.
Qed.

(** The relay step, case by case on what the device answers. *)
Lemma _set_relay_cases base_url (turn_on : bool) w :
  let desired := if turn_on then "ON" else "OFF" in
  let w' := (_set_relay base_url turn_on w).2 in
  (_set_relay base_url turn_on w).1 = Ret tt /\
  schedules w' = schedules w /\ config w' = config w /\ device w' = device w /\
  jobs w' = jobs w /\
  match device w (sent w ++ [status_call base_url]) with
  | Fails f =>
      sent w' = sent w ++ [status_call base_url] /\
      logged w' = logged w
        ++ [mkLog ERROR "Relay control failed: %s" [AExn (RequestException f)]]
  | Body text =>
      if bool_decide (Py.strip text = desired) then
        sent w' = sent w ++ [status_call base_url] /\
        logged w' = logged w ++ [mkLog INFO "Relay already %s" [AStr desired]]
      else
        sent w' = sent w ++ [status_call base_url; toggle_call base_url] /\
        match device w (sent w ++ [status_call base_url; toggle_call base_url]) with
        | Fails f =>
            logged w' = logged w
              ++ [mkLog ERROR "Relay control failed: %s" [AExn (RequestException f)]]
        | Body _ =>
            logged w' = logged w ++ [mkLog INFO "Relay toggled to %s" [AStr desired]]
        end
  end.
Proof.
  intros desired w'. subst w'.
  unfold _set_relay, try_except, mbind, M_bind, http_get, status_call, toggle_call.
  fold desired.
  destruct (device w (sent w ++ [mkRequest (base_url +:+ "/relaystatus") [] 5]))
    as [text|f] eqn:Hst; simpl; [|done].
  destruct (decide (Py.strip text = desired)) as [Heq|Hne].
  - rewrite (bool_decide_eq_false_2 (Py.strip text <> desired)) by tauto.
    rewrite (bool_decide_eq_true_2 (Py.strip text = desired)) by done. done.
  - rewrite (bool_decide_eq_true_2 (Py.strip text <> desired)) by done.
    rewrite (bool_decide_eq_false_2 (Py.strip text = desired)) by done. simpl.
    rewrite <- (app_assoc (sent w)). simpl.
    destruct (device w (sent w ++ [mkRequest (base_url +:+ "/relaystatus") [] 5;
                                   mkRequest (base_url +:+ "/relay") [] 5]));
      simpl; done.
Qed.

(** The strip step once the parameters are built. *)
Lemma _set_strip_cases base_url s w p :
  strip_params s = Ret p ->
  let w' := (_set_strip base_url s w).2 in
  (_set_strip base_url s w).1 = Ret tt /\
  sent w' = sent w ++ [strip_call base_url p] /\
  logged w' = logged w ++
    [match device w (sent w ++ [strip_call base_url p]) with
     | Body _ => mkLog INFO "Strip set: %s" [AParams p]
     | Fails f => mkLog ERROR "Strip control failed: %s" [AExn (RequestException f)]
     end].
Proof.
  intros Hp w'. subst w'.
  unfold _set_strip, try_except, mbind, M_bind, lift, http_get, strip_call.
  rewrite Hp.
  destruct (device w (sent w ++ [mkRequest (base_url +:+ "/strip") p 5])); done.
Qed.

(** A strip step whose colour does not decode raises before any call. *)
Lemma _set_strip_undecoded base_url s w e :
  strip_params s = Raise e ->
  _set_strip base_url s w = (Raise e, w) /\ e = ValueError.
Proof.
  intros Hp.
  assert (e = ValueError) as ->.
  { unfold strip_params, int16, mbind, result_bind in Hp.
    destruct (bool_decide (s_action s = "on")); [|discriminate Hp].
    repeat match type of Hp with
           | context [match Py.int 16 ?x with _ => _ end] => destruct (Py.int 16 x)
           end; by inversion Hp. }
  split; [|done].
  unfold _set_strip, try_except, mbind, M_bind, lift. by rewrite Hp.
Qed.

(** [execute_schedule] past its two guards. *)
Lemma execute_schedule_configured sid s base_url w :
  schedules w !! sid = Some s ->
  config w !! "esp32_url" = Some base_url ->
  base_url <> "" ->
  execute_schedule sid w =
    ((if truthy (s_relay s)
      then _set_relay base_url (bool_decide (s_action s = "on"))
      else pass);;
     (if truthy (s_strip s) then _set_strip base_url s else pass))
      (log_info "Executing schedule '%s' (action=%s)"
                [AStr (s_name s); AStr (s_action s)] w).2.
Proof.
  intros Hs Hc Hne.
  unfold execute_schedule, mbind at 1, M_bind at 1, select_schedule.
  rewrite Hs. unfold mbind at 1, M_bind at 1, get_config. rewrite Hc.
  destruct base_url as [|c t]; [done|]. reflexivity.
Qed.

Lemma execute_schedule_no_row sid w :
  schedules w !! sid = None ->
  execute_schedule sid w
    = (Ret tt,
       set_logged (logged w ++ [mkLog WARNING "Schedule %d not found" [AInt sid]]) w).
Proof.
  intros Hs. unfold execute_schedule, mbind, M_bind, select_schedule. by rewrite Hs.
Qed.

Lemma execute_schedule_no_url sid s w :
  schedules w !! sid = Some s ->
  config w !! "esp32_url" = None ->
  execute_schedule sid w
    = (Ret tt, set_logged (logged w ++ [mkLog ERROR "ESP32 URL not configured" []]) w).
Proof.
  intros Hs Hc.
  unfold execute_schedule, mbind, M_bind, select_schedule, get_config.
  by rewrite Hs, Hc.
Qed.

End Firing.

(** C6. When the schedule id is not in the store, [execute_schedule] logs
    one warning and returns: nothing is raised, no request goes to the
    device, and nothing else in the world changes. *)
Theorem execute_schedule_absent (sid : Z) (w : World) :
  schedules w !! sid = None ->
  execute_schedule sid w
    = (Ret tt,
       set_logged (logged w ++ [mkLog WARNING "Schedule %d not found" [AInt sid]]) w) /\
  issued_by (execute_schedule sid) w = [].
Proof.
  intros Hs. pose proof (execute_schedule_no_row sid w Hs) as He.
  split; [done|]. unfold issued_by. rewrite He. simpl. apply drop_all.
Qed.

Lemma execute_schedule_absent_witness :
  let w := world_of {[1 := evening]} (device_saying "ON") in
  (execute_schedule 2 w).1 = Ret tt /\
  logged (execute_schedule 2 w).2 = [mkLog WARNING "Schedule %d not found" [AInt 2]] /\
  sent (execute_schedule 2 w).2 = [].
Proof.
  intros w.
  destruct (execute_schedule_absent 2 w eq_refl) as [He _].
  rewrite He. repeat split.
Defined.

(** C9. When the store has the schedule but the configuration has no
    [esp32_url], [execute_schedule] logs one error and returns: neither the
    relay step nor the strip step runs, no request goes to the device, and
    the call does not raise. *)
Theorem execute_schedule_unconfigured (sid : Z) (s : Schedule) (w : World) :
  schedules w !! sid = Some s ->
  config w !! "esp32_url" = None ->
  execute_schedule sid w
    = (Ret tt, set_logged (logged w ++ [mkLog ERROR "ESP32 URL not configured" []]) w) /\
  issued_by (execute_schedule sid) w = [].
Proof.
  intros Hs Hc. pose proof (execute_schedule_no_url sid s w Hs Hc) as He.
  split; [done|]. unfold issued_by. rewrite He. simpl. apply drop_all.
Qed.

Lemma execute_schedule_unconfigured_witness :
  let w := mkWorld {[1 := evening]} ∅ true [] [] [] (device_saying "ON") in
  (execute_schedule 1 w).1 = Ret tt /\
  logged (execute_schedule 1 w).2 = [mkLog ERROR "ESP32 URL not configured" []] /\
  sent (execute_schedule 1 w).2 = [].
Proof.
  intros w.
  destruct (execute_schedule_unconfigured 1 evening w eq_refl eq_refl) as [He _].
  rewrite He. repeat split.
Defined.

(** C2. When the device answers the relay status call, [_set_relay] returns
    and issues the status call alone, so no toggle call, if the trimmed
    answer is the desired state, and the status call followed by exactly
    one toggle call if it is not. *)
Theorem relay_toggles_only_when_needed
    (base_url : string) (turn_on : bool) (w : World) (text : string) :
  device w (sent w ++ [status_call base_url]) = Body text ->
  let desired := if turn_on then "ON" else "OFF" in
  let new := issued_by (_set_relay base_url turn_on) w in
  (_set_relay base_url turn_on w).1 = Ret tt /\
  (Py.strip text = desired ->
     new = [status_call base_url] /\ toggle_calls base_url new = 0%nat) /\
  (Py.strip text <> desired ->
     new = [status_call base_url; toggle_call base_url] /\
     toggle_calls base_url new = 1%nat).
Proof.
  intros Hdev desired new.
  destruct (_set_relay_cases base_url turn_on w) as (Hret & _ & _ & _ & _ & Hcase).
  rewrite Hdev in Hcase. fold desired in Hcase.
  split; [done|]. subst new. unfold issued_by. split.
  - intros Heq. rewrite bool_decide_eq_true_2 in Hcase by done.
    destruct Hcase as [-> _]. rewrite drop_app_length.
    split; [done|]. apply toggle_calls_status.
  - intros Hne. rewrite bool_decide_eq_false_2 in Hcase by done.
    destruct Hcase as [-> _]. rewrite drop_app_length.
    split; [done|]. apply toggle_calls_status_toggle.
Qed.

Lemma relay_toggles_only_when_needed_witness :
  let w := world_of {[1 := evening]} (device_saying " ON ") in
  let base_url := "http://192.168.1.100" in
  toggle_calls base_url (issued_by (_set_relay base_url true) w) = 0%nat /\
  toggle_calls base_url (issued_by (_set_relay base_url false) w) = 1%nat.
Proof.
  intros w base_url. split.
  - destruct (relay_toggles_only_when_needed base_url true w " ON " eq_refl)
      as (_ & Hsame & _).
    destruct (Hsame eq_refl) as [_ H0]. exact H0.
  - destruct (relay_toggles_only_when_needed base_url false w " ON " eq_refl)
      as (_ & _ & Hdiff).
    assert (Py.strip " ON " <> "OFF") as Hne by (vm_compute; discriminate).
    destruct (Hdiff Hne) as [_ H1]. exact H1.
Defined.



(** ** Colours *)

Section Colours.

Lemma assoc_In c v t : assoc c t = Some v -> In (c, v) t.
Proof.
  induction t as [|[k u] t IH]; simpl; [done|].
  case_bool_decide as Hk.
  - intros [= <-]. subst k. by left.
  - intros H. right. by apply IH.
Qed.

Ltac hex_cases H :=
  apply assoc_In in H; simpl in H;
  repeat (destruct H as [H|H]; [injection H as <- <-|]); [..|destruct H].

Lemma hexval_range c v : hexval c = Some v -> 0 <= v <= 15.
Proof. intros H. hex_cases H; lia. Qed.

Lemma hexval_not_hash c v : hexval c = Some v -> c <> "#"%char.
Proof. intros H. hex_cases H; discriminate. Qed.

(** [int(pair, 16)] on two hexadecimal digits. *)
Lemma int16_pair c d u v :
  hexval c = Some u -> hexval d = Some v ->
  int16 (String c (String d EmptyString)) = Ret (16 * u + v).
Proof.
  intros Hc Hd. hex_cases Hc; hex_cases Hd; vm_compute; reflexivity.
Qed.

Lemma lstrip_hash (hash : bool) c t v :
  hexval c = Some v ->
  Py.lstrip "#" ((if hash then "#" else "") +:+ String c t) = String c t.
Proof.
  intros Hc. apply hexval_not_hash in Hc.
  assert (Py.lstrip "#" (String c t) = String c t) as Hbody.
  { unfold Py.lstrip. simpl. by rewrite bool_decide_eq_false_2. }
  destruct hash; [|exact Hbody].
  change (Py.lstrip "#" (String "#" (String c t)) = String c t).
  unfold Py.lstrip in *. simpl. simpl in Hbody. by rewrite Hbody.
Qed.

End Colours.

(** C4. With action [on], a colour of six hexadecimal digits, with or
    without a leading [#], is cut into three pairs of digits, each pair is
    read as a number from 0 to 255, and the strip call carries [on=1], the
    brightness, the three numbers and [mode=solid]; [#ff0000] gives 255, 0,
    0 and [00ff00] gives 0, 255, 0. With action [off] the strip call
    carries [on=0] alone. *)
Theorem strip_step_sends_decoded_colour :
  (forall (s : Schedule) (base_url : string) (w : World) (hash : bool)
          (c1 c2 c3 c4 c5 c6 : ascii) (r1 r2 g1 g2 b1 b2 : Z),
      s_action s = "on" ->
      hexval c1 = Some r1 -> hexval c2 = Some r2 ->
      hexval c3 = Some g1 -> hexval c4 = Some g2 ->
      hexval c5 = Some b1 -> hexval c6 = Some b2 ->
      s_color s = (if hash then "#" else "")
                    +:+ string_of_list_ascii [c1; c2; c3; c4; c5; c6] ->
      let r := 16 * r1 + r2 in
      let g := 16 * g1 + g2 in
      let b := 16 * b1 + b2 in
      0 <= r <= 255 /\ 0 <= g <= 255 /\ 0 <= b <= 255 /\
      strip_params s = Ret (solid (s_brightness s) r g b) /\
      issued_by (_set_strip base_url s) w
        = [strip_call base_url (solid (s_brightness s) r g b)]) /\
  (forall s, s_action s = "on" -> s_color s = "#ff0000" ->
      strip_params s = Ret (solid (s_brightness s) 255 0 0)) /\
  (forall s, s_action s = "on" -> s_color s = "00ff00" ->
      strip_params s = Ret (solid (s_brightness s) 0 255 0)) /\
  (forall (s : Schedule) (base_url : string) (w : World),
      s_action s = "off" ->
      strip_params s = Ret [("on", PInt 0)] /\
      issued_by (_set_strip base_url s) w = [strip_call base_url [("on", PInt 0)]]).
Proof.
  assert (forall s base_url w p, strip_params s = Ret p ->
            issued_by (_set_strip base_url s) w = [strip_call base_url p]) as Hsend.
  { intros s base_url w p Hp.
    destruct (_set_strip_cases base_url s w p Hp) as (_ & Hsent & _).
    unfold issued_by. rewrite Hsent. apply drop_app_length. }
  split; [|split; [|split]].
  - intros s base_url w hash c1 c2 c3 c4 c5 c6 r1 r2 g1 g2 b1 b2
      Hon H1 H2 H3 H4 H5 H6 Hcol r g b.
    pose proof (hexval_range _ _ H1). pose proof (hexval_range _ _ H2).
    pose proof (hexval_range _ _ H3). pose proof (hexval_range _ _ H4).
    pose proof (hexval_range _ _ H5). pose proof (hexval_range _ _ H6).
    assert (strip_params s = Ret (solid (s_brightness s) r g b)) as Hp.
    { unfold strip_params. rewrite bool_decide_eq_true_2 by done.
      rewrite Hcol. simpl string_of_list_ascii.
      rewrite (lstrip_hash hash c1 _ r1 H1).
      change (Py.slice 0 2 (String c1 (String c2 (String c3 (String c4
                (String c5 (String c6 EmptyString)))))))
        with (String c1 (String c2 EmptyString)).
      change (Py.slice 2 4 (String c1 (String c2 (String c3 (String c4
                (String c5 (String c6 EmptyString)))))))
        with (String c3 (String c4 EmptyString)).
      change (Py.slice 4 6 (String c1 (String c2 (String c3 (String c4
                (String c5 (String c6 EmptyString)))))))
        with (String c5 (String c6 EmptyString)).
      rewrite (int16_pair c1 c2 r1 r2 H1 H2).
      rewrite (int16_pair c3 c4 g1 g2 H3 H4).
      rewrite (int16_pair c5 c6 b1 b2 H5 H6). reflexivity. }
    subst r g b. repeat (split; [lia|]). split; [done|]. by apply Hsend.
  - intros s Hon Hcol. unfold strip_params.
    rewrite bool_decide_eq_true_2 by done. by rewrite Hcol.
  - intros s Hon Hcol. unfold strip_params.
    rewrite bool_decide_eq_true_2 by done. by rewrite Hcol.
  - intros s base_url w Hoff.
    assert (strip_params s = Ret [("on", PInt 0)]) as Hp.
    { unfold strip_params. rewrite Hoff. reflexivity. }
    split; [done|]. by apply Hsend.
Qed.

Lemma strip_step_sends_decoded_colour_witness :
  let w := world_of {[1 := evening]} (device_saying "OK") in
  let base_url := "http://192.168.1.100" in
  issued_by (_set_strip base_url evening) w
    = [strip_call base_url (solid 128 17 34 51)] /\
  issued_by (_set_strip base_url evening_off) w
    = [strip_call base_url [("on", PInt 0)]].
Proof.
  intros w base_url.
  destruct strip_step_sends_decoded_colour as (Hon & _ & _ & Hoff).
  split.
  - destruct (Hon evening base_url w true "1" "1" "2" "2" "3" "3" 1 1 2 2 3 3
                eq_refl eq_refl eq_refl eq_refl eq_refl eq_refl eq_refl eq_refl)%char
      as (_ & _ & _ & _ & Hsent).
    exact Hsent.
  - destruct (Hoff evening_off base_url w eq_refl) as [_ Hsent]. exact Hsent.
Defined.

(** ** Weekdays *)

(** C5. Every weekday index from 0 to 6 has a name in [DAY_NAMES] that the
    cron trigger reads as the weekday of that index, 0 as Monday and so on
    in order up to 6 as Sunday; and the trigger derived for a schedule
    whose days are such indices fires on the weekdays of those indices. *)
Theorem day_indices_name_monday_to_sunday :
  (forall d, 0 <= d <= 6 ->
     exists n wd, getitem DAY_NAMES d = Ret n /\ weekday_of_name n = Ret wd /\
                  WEEK !! Z.to_nat d = Some wd) /\
  (weekday_of_name <$> DAY_NAMES) = (Ret <$> WEEK) /\
  (getitem DAY_NAMES 0 ≫= weekday_of_name) = Ret Monday /\
  (getitem DAY_NAMES 6 ≫= weekday_of_name) = Ret Sunday /\
  (forall s hour minute h m ds wds,
     Py.split ":" (s_time s) = [hour; minute] ->
     int10 hour = Ret h -> int10 minute = Ret m ->
     0 <= h <= 23 -> 0 <= m <= 59 ->
     mapM int10 (Py.split "," (s_days s)) = Ret ds ->
     mapM weekday_of_index ds = Some wds ->
     exists names, derive_trigger s = Ret (names, mkCronTrigger wds h m)).
Proof.
  split; [|split; [|split; [|split]]]; try reflexivity.
  - intros d Hd.
    assert (weekday_of_index d = Some (default Monday (WEEK !! Z.to_nat d))
            /\ WEEK !! Z.to_nat d = Some (default Monday (WEEK !! Z.to_nat d)))
      as [Hwd Hlk].
    { unfold weekday_of_index.
      assert (d = 0 \/ d = 1 \/ d = 2 \/ d = 3 \/ d = 4 \/ d = 5 \/ d = 6)
        as Hc by lia.
      destruct Hc as [->|[->|[->|[->|[->|[->| ->]]]]]]; by split. }
    destruct (day_name_of_index d _ Hwd) as (n & Hget & Hname & _).
    by exists n, (default Monday (WEEK !! Z.to_nat d)).
  - intros s hour minute h m ds wds Ht Hh Hm Hhr Hmr Hds Hwds.
    assert (ds <> []) as Hne.
    { apply mapM_result_length in Hds. intros ->.
      by destruct (Py.split "," (s_days s)) eqn:Hsp;
        [apply split_nonempty in Hsp|]. }
    destruct (day_names_of_indices ds wds Hne Hwds) as (names & Hnames & Hread).
    exists (Py.join "," names).
    unfold derive_trigger. rewrite Ht. simpl unpack2.
    unfold mbind at 1, result_bind at 1. rewrite Hds.
    unfold mbind at 1, result_bind at 1. rewrite Hnames.
    unfold mbind at 1, result_bind at 1. rewrite Hh.
    unfold mbind at 1, result_bind at 1. rewrite Hm.
    unfold mbind at 1, result_bind at 1.
    unfold new_CronTrigger. unfold mbind at 1, result_bind at 1. rewrite Hread.
    assert ((0 <=? h) && (h <=? 23) = true) as -> by lia.
    assert ((0 <=? m) && (m <=? 59) = true) as -> by lia.
    reflexivity.
Qed.

Lemma day_indices_name_monday_to_sunday_witness :
  (exists n wd, getitem DAY_NAMES 2 = Ret n /\ weekday_of_name n = Ret wd /\
                WEEK !! Z.to_nat 2 = Some wd) /\
  exists names,
    derive_trigger evening
      = Ret (names, mkCronTrigger [Monday; Tuesday; Wednesday; Thursday; Friday] 18 30).
Proof.
  destruct day_indices_name_monday_to_sunday as (Hone & _ & _ & _ & Hall).
  split.
  - apply (Hone 2). lia.
  - apply (Hall evening "18" "30" 18 30 [0; 1; 2; 3; 4]);
      first [reflexivity | lia].
Defined.

(** ** Updates and malformed records *)

(** C7. What the code does for an id that is not in the store: the [UPDATE]
    changes nothing, the row read back is [None], and [dict(None)] raises
    [TypeError] out of the view; the store and the job table are as
    before. No not-found result is returned. *)
Theorem update_schedule_absent
    (sid : Z) (data : Fields) (w : World) (name time : string) :
  schedules w !! sid = None ->
  f_name data = Some name ->
  f_time data = Some time ->
  update_schedule sid data w = (Raise TypeError, w).
Proof.
  intros Hs Hn Ht.
  unfold update_schedule, mbind, M_bind, lift, subscript, update_row, select_schedule.
  rewrite Hn, Ht, Hs. simpl. by rewrite Hs.
Qed.

Lemma update_schedule_absent_witness :
  let w := world_of {[1 := evening]} device_down in
  update_schedule 99 morning_fields w = (Raise TypeError, w).
Proof.
  intros w.
  exact (update_schedule_absent 99 morning_fields w "Morning" "08:00"
           eq_refl eq_refl eq_refl).
Defined.




(** * Further properties of the code *)

(** ** Jobs of different schedules *)

Section OtherJobs.

Implicit Types (l : list Job) (j : Job) (jid k : string) (w : World) (s : Schedule).

Lemma job_id_of_inj (a b : Z) : job_id_of a = job_id_of b -> a = b.
Proof.
  unfold job_id_of, Py.str. intros H.
  apply (String.app_inj "schedule_") in H. by apply pretty_Z_inj in H.
Qed.

Lemma remove_first_other jid l l' k :
  remove_first jid l = Some l' -> k <> jid -> jobs_with k l' = jobs_with k l.
Proof.
  unfold jobs_with. revert l'.
  induction l as [|j l IH]; intros l' Hrm Hk; simpl in *; [done|].
  unfold has_id in *. case_bool_decide as Hj.
  - injection Hrm as <-. rewrite bool_decide_eq_false_2 by congruence. done.
  - destruct (remove_first jid l) as [l0|]; simpl in Hrm; [|done].
    injection Hrm as <-. simpl. by rewrite (IH l0 eq_refl Hk).
Qed.

Lemma replace_first_other j l l' k :
  replace_first j l = Some l' -> k <> job_id j -> jobs_with k l' = jobs_with k l.
Proof.
  unfold jobs_with. revert l'.
  induction l as [|j0 l IH]; intros l' Hrp Hk; simpl in *; [done|].
  unfold has_id in *. case_bool_decide as Hj.
  - injection Hrp as <-. simpl.
    rewrite !bool_decide_eq_false_2 by congruence. done.
  - destruct (replace_first j l) as [l0|]; simpl in Hrp; [|done].
    injection Hrp as <-. simpl. by rewrite (IH l0 eq_refl Hk).
Qed.

Lemma jobs_with_app k l l' : jobs_with k (l ++ l') = jobs_with k l ++ jobs_with k l'.
Proof. apply List.filter_app. Qed.

(** The world after [schedule_job] when the trigger is derived: only the
    jobs and the log change, the jobs of other ids stay, and under the
    schedule's own id the new job stands alone, or nothing does. *)
Lemma schedule_job_effect s w names tr :
  derive_trigger s = Ret (names, tr) ->
  let jid := job_id_of (s_id s) in
  let w' := (schedule_job s w).2 in
  (schedule_job s w).1 = Ret tt /\
  schedules w' = schedules w /\ config w' = config w /\ running w' = running w /\
  sent w' = sent w /\ device w' = device w /\
  (forall k, k <> jid -> jobs_with k (jobs w') = jobs_with k (jobs w)) /\
  ((count_id jid (jobs w) <= 1)%nat ->
     jobs_with jid (jobs w')
     = if truthy (s_enabled s) then [mkJob jid tr (s_id s)] else []).
Proof.
  intros Hd jid w'. subst w'.
  assert (exists l1, try_except (remove_job jid) is_Exception (fun _ => pass) w
                       = (Ret tt, set_jobs l1 w) /\
                     (forall k, k <> jid -> jobs_with k l1 = jobs_with k (jobs w)) /\
                     count_id jid l1 = (count_id jid (jobs w) - 1)%nat)
    as (l1 & Hrm & Hother1 & Hc1).
  { unfold try_except, remove_job.
    destruct (remove_first jid (jobs w)) as [l0|] eqn:Hrf.
    - exists l0. split; [done|]. split.
      + intros k Hk. by apply (remove_first_other jid).
      + rewrite (remove_first_count jid (jobs w) l0 jid Hrf).
        by rewrite bool_decide_eq_true_2.
    - exists (jobs w). split; [by destruct w|]. split; [done|].
      rewrite (remove_first_None _ _ Hrf). lia. }
  assert (exists l2, add_job (mkJob jid tr (s_id s)) (set_jobs l1 w)
                       = (Ret tt, set_jobs l2 (set_jobs l1 w)) /\
                     (forall k, k <> jid -> jobs_with k l2 = jobs_with k l1) /\
                     (count_id jid l1 = 0%nat -> l2 = l1 ++ [mkJob jid tr (s_id s)]))
    as (l2 & Hadd & Hother2 & Hfresh).
  { unfold add_job. simpl.
    destruct (running w) eqn:Hr;
      [destruct (replace_first (mkJob jid tr (s_id s)) l1) as [l0|] eqn:Hrp|].
    - exists l0. split; [done|]. split.
      + intros k Hk. by apply (replace_first_other (mkJob jid tr (s_id s))).
      + intros H0. pose proof (add_job_fresh (mkJob jid tr (s_id s)) (set_jobs l1 w) H0)
          as Hf.
        unfold add_job in Hf. simpl in Hf. rewrite Hr, Hrp in Hf.
        injection Hf as Hf. exact Hf.
    - exists (l1 ++ [mkJob jid tr (s_id s)]). split; [done|]. split; [|done].
      intros k Hk. rewrite jobs_with_app. unfold jobs_with at 2. simpl.
      unfold has_id. simpl. rewrite bool_decide_eq_false_2 by congruence.
      by rewrite app_nil_r.
    - exists (l1 ++ [mkJob jid tr (s_id s)]). split; [done|]. split; [|done].
      intros k Hk. rewrite jobs_with_app. unfold jobs_with at 2. simpl.
      unfold has_id. simpl. rewrite bool_decide_eq_false_2 by congruence.
      by rewrite app_nil_r. }
  unfold schedule_job, mbind, M_bind, lift. rewrite Hd. fold jid. rewrite Hrm.
  destruct (truthy (s_enabled s)).
  - rewrite Hadd. simpl. do 6 (split; [done|]). split.
    + intros k Hk. by rewrite Hother2, Hother1.
    + intros Hle. rewrite Hfresh by lia. rewrite jobs_with_app.
      unfold jobs_with at 1. rewrite (count_id_0_filter jid l1) by lia.
      unfold jobs_with. simpl. unfold has_id. simpl.
      by rewrite bool_decide_eq_true_2.
  - simpl. do 6 (split; [done|]). split.
    + intros k Hk. by rewrite Hother1.
    + intros Hle. unfold jobs_with. apply count_id_0_filter. lia.
Qed.

End OtherJobs.

(** X1. Job ids of different schedules differ, and reconciling one schedule
    leaves the jobs of every other schedule exactly as they were, whether
    the reconcile succeeds or raises; it never changes a table, and never
    calls the device. *)
Theorem reconcile_leaves_other_schedules :
  (forall a b, job_id_of a = job_id_of b -> a = b) /\
  (forall s w b,
     s_id s <> b ->
     jobs_with (job_id_of b) (jobs (schedule_job s w).2)
     = jobs_with (job_id_of b) (jobs w)) /\
  (forall s w,
     schedules (schedule_job s w).2 = schedules w /\
     config (schedule_job s w).2 = config w /\
     sent (schedule_job s w).2 = sent w).
Proof.
  split; [exact job_id_of_inj|]. split.
  - intros s w b Hne. destruct (derive_trigger s) as [[names tr]|e] eqn:Hd.
    + destruct (schedule_job_effect s w names tr Hd)
        as (_ & _ & _ & _ & _ & _ & Hother & _).
      apply Hother. intros Heq. apply job_id_of_inj in Heq. congruence.
    + by rewrite (schedule_job_raises s w e Hd).
  - intros s w. destruct (derive_trigger s) as [[names tr]|e] eqn:Hd.
    + by destruct (schedule_job_effect s w names tr Hd)
        as (_ & H1 & H2 & _ & H3 & _).
    + by rewrite (schedule_job_raises s w e Hd).
Qed.

Lemma reconcile_leaves_other_schedules_witness :
  let w := (schedule_job saturday_off
              (world_of {[1 := evening; 2 := saturday_off]} device_down)).2 in
  jobs_with "schedule_2" (jobs (schedule_job evening w).2)
  = [mkJob "schedule_2" (mkCronTrigger [Saturday; Sunday] 9 5) 2].
Proof.
  intros w.
  destruct reconcile_leaves_other_schedules as (_ & Hother & _).
  assert (s_id evening <> 2) as Hne by discriminate.
  pose proof (Hother evening w 2 Hne) as H.
  assert (job_id_of 2 = "schedule_2") as Hid by (vm_compute; reflexivity).
  rewrite Hid in H. rewrite H. vm_compute. reflexivity.
Defined.

(** ** Deleting, updating and creating *)

Section Routes.

Implicit Types (l : list Job) (jid : string) (w : World) (s : Schedule).

Lemma count_id_0_remove_first jid l :
  count_id jid l = 0%nat -> remove_first jid l = None.
Proof.
  induction l as [|j l IH]; simpl; [done|].
  destruct (has_id jid j); [done|]. intros H0. by rewrite IH.
Qed.

(** Removing a job and ignoring the error, in full. *)
Lemma remove_quietly_jobs jid w :
  exists l1,
    try_except (remove_job jid) is_Exception (fun _ => pass) w = (Ret tt, set_jobs l1 w) /\
    (forall k, k <> jid -> jobs_with k l1 = jobs_with k (jobs w)) /\
    count_id jid l1 = (count_id jid (jobs w) - 1)%nat /\
    (count_id jid (jobs w) = 0%nat -> l1 = jobs w).
Proof.
  unfold try_except, remove_job.
  destruct (remove_first jid (jobs w)) as [l0|] eqn:Hrf.
  - exists l0. split; [done|]. split; [|split].
    + intros k Hk. by apply (remove_first_other jid).
    + rewrite (remove_first_count jid (jobs w) l0 jid Hrf).
      by rewrite bool_decide_eq_true_2.
    + intros H0. by rewrite (count_id_0_remove_first _ _ H0) in Hrf.
  - exists (jobs w). split; [by destruct w|]. split; [done|]. split; [|done].
    rewrite (remove_first_None _ _ Hrf). lia.
Qed.

(** [update_schedule] on a row that is there, up to the reconcile. *)
Lemma update_schedule_present sid data w old name time :
  schedules w !! sid = Some old ->
  f_name data = Some name ->
  f_time data = Some time ->
  let row := row_of_fields sid name time data in
  let w1 := set_schedules (<[sid := row]> (schedules w)) w in
  update_schedule sid data w
  = match schedule_job row w1 with
    | (Ret _, w2) => (Ret row, w2)
    | (Raise e, w2) => (Raise e, w2)
    end.
Proof.
  intros Hs Hn Ht row w1.
  unfold update_schedule, mbind, M_bind, lift, subscript, update_row, select_schedule.
  rewrite Hn, Ht, Hs. simpl. rewrite lookup_insert_eq. simpl.
  fold (row_of_fields sid name time data). fold row. fold w1.
  by destruct (schedule_job row w1) as [[[]|e] w2].
Qed.

(** [create_schedule] up to the reconcile. *)
Lemma create_schedule_named rowid data w name time :
  f_name data = Some name ->
  f_time data = Some time ->
  let row := row_of_fields rowid name time data in
  let w1 := set_schedules (<[rowid := row]> (schedules w)) w in
  create_schedule rowid data w
  = match schedule_job row w1 with
    | (Ret _, w2) => (Ret row, w2)
    | (Raise e, w2) => (Raise e, w2)
    end.
Proof.
  intros Hn Ht row w1.
  unfold create_schedule, mbind, M_bind, lift, subscript, insert_row, select_schedule.
  rewrite Hn, Ht. simpl. rewrite lookup_insert_eq. simpl.
  fold row. fold w1.
  by destruct (schedule_job row w1) as [[[]|e] w2].
Qed.

(** A write of a row followed by its reconcile, when the trigger is
    derived: what both routes do after their statement. *)
Lemma write_then_schedule (m : gmap Z Schedule) w s names tr :
  derive_trigger s = Ret (names, tr) ->
  (registered (job_id_of (s_id s)) w <= 1)%nat ->
  let w2 := (schedule_job s (set_schedules m w)).2 in
  (schedule_job s (set_schedules m w)).1 = Ret tt /\
  schedules w2 = m /\ config w2 = config w /\ sent w2 = sent w /\
  jobs_with (job_id_of (s_id s)) (jobs w2)
    = (if truthy (s_enabled s) then [mkJob (job_id_of (s_id s)) tr (s_id s)] else []) /\
  (forall k, k <> s_id s ->
     jobs_with (job_id_of k) (jobs w2) = jobs_with (job_id_of k) (jobs w)).
Proof.
  intros Hd Hle w2.
  destruct (schedule_job_effect s (set_schedules m w) names tr Hd)
    as (Hret & Hsch & Hcfg & _ & Hsent & _ & Hother & Hown).
  split; [done|]. split; [done|]. split; [done|]. split; [done|]. split.
  - by apply Hown.
  - intros k Hk. apply Hother. intros Heq. by apply job_id_of_inj in Heq.
Qed.

(** [delete_schedule] in full. *)
Lemma delete_schedule_effect sid w :
  exists l1,
    delete_schedule sid w
      = (Ret tt, set_jobs l1 (set_schedules (delete sid (schedules w)) w)) /\
    (forall k, k <> job_id_of sid -> jobs_with k l1 = jobs_with k (jobs w)) /\
    count_id (job_id_of sid) l1 = (count_id (job_id_of sid) (jobs w) - 1)%nat /\
    (count_id (job_id_of sid) (jobs w) = 0%nat -> l1 = jobs w).
Proof.
  destruct (remove_quietly_jobs (job_id_of sid)
              (set_schedules (delete sid (schedules w)) w))
    as (l1 & Hrm & Hother & Hc1 & Hsame).
  exists l1. split; [|done].
  unfold delete_schedule, mbind, M_bind, delete_row. by rewrite Hrm.
Qed.

End Routes.

(** X2. For an id that SQLite can hold, [delete_schedule] returns; the row
    of the id is gone and every other row and the jobs of every other
    schedule are as before; when the id had at most one job it has none
    afterwards, and deleting a second time changes nothing more. *)
Theorem delete_schedule_removes_row_and_job (sid : Z) (w : World) :
  in_int64 sid ->
  let w' := (delete_schedule sid w).2 in
  (delete_schedule sid w).1 = Ret tt /\
  schedules w' !! sid = None /\
  (forall k, k <> sid ->
     schedules w' !! k = schedules w !! k /\
     jobs_with (job_id_of k) (jobs w') = jobs_with (job_id_of k) (jobs w)) /\
  ((registered (job_id_of sid) w <= 1)%nat ->
     jobs_with (job_id_of sid) (jobs w') = [] /\
     delete_schedule sid w' = (Ret tt, w')).
Proof.
  intros _ w'. subst w'.
  destruct (delete_schedule_effect sid w) as (l1 & Hdel & Hother & Hc1 & _).
  rewrite Hdel. simpl. split; [done|]. split; [apply lookup_delete_eq|]. split.
  - intros k Hk. split; [by apply lookup_delete_ne|].
    apply Hother. intros Heq. by apply job_id_of_inj in Heq.
  - intros Hle. unfold registered in Hle.
    assert (count_id (job_id_of sid) l1 = 0%nat) as H0 by lia.
    split; [by apply count_id_0_filter|].
    destruct (delete_schedule_effect sid
                (set_jobs l1 (set_schedules (delete sid (schedules w)) w)))
      as (l2 & Hdel2 & _ & _ & Hsame).
    rewrite Hdel2, (Hsame H0). unfold set_jobs, set_schedules. simpl.
    by rewrite delete_delete_eq.
Qed.

Lemma delete_schedule_removes_row_and_job_witness :
  let w := (schedule_job saturday_off
              (schedule_job evening
                 (world_of {[1 := evening; 2 := saturday_off]} device_down)).2).2 in
  let w' := (delete_schedule 1 w).2 in
  schedules w' !! 2 = Some saturday_off /\
  jobs w' = [mkJob "schedule_2" (mkCronTrigger [Saturday; Sunday] 9 5) 2] /\
  delete_schedule 1 w' = (Ret tt, w').
Proof.
  intros w w'.
  assert (in_int64 1) as H64
    by (unfold in_int64; change (2 ^ 63) with 9223372036854775808; lia).
  destruct (delete_schedule_removes_row_and_job 1 w H64) as (_ & _ & Hother & Hown).
  assert (registered (job_id_of 1) w <= 1)%nat as Hle by (vm_compute; lia).
  destruct (Hown Hle) as [_ Hidem].
  assert (2 <> 1) as Hne by lia.
  destruct (Hother 2 Hne) as [Hrow _].
  split; [|split].
  - fold w' in Hrow. rewrite Hrow. vm_compute. reflexivity.
  - vm_compute. reflexivity.
  - exact Hidem.
Defined.

(** X3. [update_schedule] on a row that is in the store, with an id and
    integers that SQLite can hold and a name and a time from which the
    trigger is derived: the row is replaced by the request's values, a key
    left out taking its default, and that row is the answer;
    the rows and jobs of other schedules stay; the schedule's own job is
    the one of the new trigger when the new row is enabled, and none when
    it is not. *)
Theorem update_schedule_replaces_row_and_job
    (sid : Z) (data : Fields) (w : World) (old : Schedule)
    (name time names : string) (tr : CronTrigger) :
  in_int64 sid ->
  bindable data ->
  schedules w !! sid = Some old ->
  f_name data = Some name ->
  f_time data = Some time ->
  let row := row_of_fields sid name time data in
  derive_trigger row = Ret (names, tr) ->
  (registered (job_id_of sid) w <= 1)%nat ->
  let w' := (update_schedule sid data w).2 in
  (update_schedule sid data w).1 = Ret row /\
  schedules w' !! sid = Some row /\
  (forall k, k <> sid ->
     schedules w' !! k = schedules w !! k /\
     jobs_with (job_id_of k) (jobs w') = jobs_with (job_id_of k) (jobs w)) /\
  jobs_with (job_id_of sid) (jobs w')
    = (if truthy (s_enabled row) then [mkJob (job_id_of sid) tr sid] else []).
Proof.
  intros _ _ Hs Hn Ht row Hd Hle w'. subst w'.
  rewrite (update_schedule_present sid data w old name time Hs Hn Ht). fold row.
  destruct (write_then_schedule (<[sid := row]> (schedules w)) w row names tr Hd Hle)
    as (Hret & Hsch & _ & _ & Hown & Hother).
  destruct (schedule_job row (set_schedules (<[sid := row]> (schedules w)) w))
    as [[[]|e] w2]; simpl in *; [|discriminate Hret].
  split; [done|]. rewrite Hsch. split; [apply lookup_insert_eq|]. split; [|done].
  intros k Hk. split; [by apply lookup_insert_ne|]. by apply Hother.
Qed.

Lemma update_schedule_replaces_row_and_job_witness :
  let w := (schedule_job evening (world_of {[1 := evening]} device_down)).2 in
  let w' := (update_schedule 1 morning_fields w).2 in
  schedules w' !! 1
    = Some (mkSchedule 1 "Morning" "08:00" "0,1,2,3,4,5,6" "on" 1 1 255 "#ffffff" 1) /\
  jobs_with "schedule_1" (jobs w')
    = [mkJob "schedule_1" (mkCronTrigger WEEK 8 0) 1].
Proof.
  intros w w'.
  assert (registered (job_id_of 1) w <= 1)%nat as Hle by (vm_compute; lia).
  assert (in_int64 1 /\ bindable morning_fields) as [H64 Hbind].
  { unfold bindable, in_int64. change (2 ^ 63) with 9223372036854775808.
    simpl. lia. }
  destruct (update_schedule_replaces_row_and_job 1 morning_fields w evening
              "Morning" "08:00" "mon,tue,wed,thu,fri,sat,sun" (mkCronTrigger WEEK 8 0)
              H64 Hbind eq_refl eq_refl eq_refl eq_refl Hle)
    as (_ & Hrow & _ & Hjob).
  split; [exact Hrow | exact Hjob].
Defined.

(** X4. [update_schedule] writes before it schedules: with an id and
    integers that SQLite can hold, when the trigger of the new values
    cannot be derived, the call raises the exception of the derivation, yet
    the row is already replaced in the store, and the job table still
    holds what it held for the old row. *)
Theorem update_schedule_keeps_unscheduled_row
    (sid : Z) (data : Fields) (w : World) (old : Schedule)
    (name time : string) (e : exn) :
  in_int64 sid ->
  bindable data ->
  schedules w !! sid = Some old ->
  f_name data = Some name ->
  f_time data = Some time ->
  let row := row_of_fields sid name time data in
  derive_trigger row = Raise e ->
  update_schedule sid data w
    = (Raise e, set_schedules (<[sid := row]> (schedules w)) w) /\
  schedules (update_schedule sid data w).2 !! sid = Some row /\
  jobs (update_schedule sid data w).2 = jobs w.
Proof.
  intros _ _ Hs Hn Ht row Hd.
  rewrite (update_schedule_present sid data w old name time Hs Hn Ht). fold row.
  rewrite (schedule_job_raises row _ e Hd). simpl.
  split; [done|]. split; [apply lookup_insert_eq|done].
Qed.

Lemma update_schedule_keeps_unscheduled_row_witness :
  let w := (schedule_job evening (world_of {[1 := evening]} device_down)).2 in
  let w' := (update_schedule 1 unparsed_fields w).2 in
  (update_schedule 1 unparsed_fields w).1 = Raise ValueError /\
  s_time <$> schedules w' !! 1 = Some "18h30" /\
  jobs w' = [mkJob "schedule_1"
               (mkCronTrigger [Monday; Tuesday; Wednesday; Thursday; Friday] 18 30) 1].
Proof.
  intros w w'.
  assert (in_int64 1 /\ bindable unparsed_fields) as [H64 Hbind].
  { unfold bindable, in_int64. change (2 ^ 63) with 9223372036854775808.
    simpl. lia. }
  destruct (update_schedule_keeps_unscheduled_row 1 unparsed_fields w evening
              "Evening" "18h30" ValueError H64 Hbind eq_refl eq_refl eq_refl eq_refl)
    as (Hres & Hrow & Hjobs).
  split; [by rewrite Hres|]. split.
  - fold w' in Hrow. by rewrite Hrow.
  - fold w' in Hjobs. rewrite Hjobs. vm_compute. reflexivity.
Defined.

(** X5. [create_schedule] with integers that SQLite can hold and a name
    and a time from which the trigger is derived, under the fresh id that
    the store assigns: the new row holds the
    request's values, a key left out taking its default, and is the answer;
    the rows already there and the jobs of other schedules stay; the new
    schedule has exactly one job when it is enabled and none when it is
    not. *)
Theorem create_schedule_adds_row_and_job
    (rowid : Z) (data : Fields) (w : World)
    (name time names : string) (tr : CronTrigger) :
  in_int64 rowid ->
  bindable data ->
  schedules w !! rowid = None ->
  f_name data = Some name ->
  f_time data = Some time ->
  let row := row_of_fields rowid name time data in
  derive_trigger row = Ret (names, tr) ->
  (registered (job_id_of rowid) w <= 1)%nat ->
  let w' := (create_schedule rowid data w).2 in
  (create_schedule rowid data w).1 = Ret row /\
  schedules w' !! rowid = Some row /\
  (forall k s, schedules w !! k = Some s -> schedules w' !! k = Some s) /\
  (forall k, k <> rowid ->
     jobs_with (job_id_of k) (jobs w') = jobs_with (job_id_of k) (jobs w)) /\
  jobs_with (job_id_of rowid) (jobs w')
    = (if truthy (s_enabled row) then [mkJob (job_id_of rowid) tr rowid] else []).
Proof.
  intros _ _ Hfresh Hn Ht row Hd Hle w'. subst w'.
  rewrite (create_schedule_named rowid data w name time Hn Ht). fold row.
  destruct (write_then_schedule (<[rowid := row]> (schedules w)) w row names tr Hd Hle)
    as (Hret & Hsch & _ & _ & Hown & Hother).
  destruct (schedule_job row (set_schedules (<[rowid := row]> (schedules w)) w))
    as [[[]|e] w2]; simpl in *; [|discriminate Hret].
  split; [done|]. rewrite Hsch. split; [apply lookup_insert_eq|].
  split; [|split; [|done]].
  - intros k s Hk. rewrite lookup_insert_ne; [done|]. congruence.
  - intros k Hk. by apply Hother.
Qed.

Lemma create_schedule_adds_row_and_job_witness :
  let w := (schedule_job evening (world_of {[1 := evening]} device_down)).2 in
  let w' := (create_schedule 2 morning_fields w).2 in
  schedules w' !! 1 = Some evening /\
  schedules w' !! 2
    = Some (mkSchedule 2 "Morning" "08:00" "0,1,2,3,4,5,6" "on" 1 1 255 "#ffffff" 1) /\
  jobs_with "schedule_2" (jobs w') = [mkJob "schedule_2" (mkCronTrigger WEEK 8 0) 2].
Proof.
  intros w w'.
  assert (registered (job_id_of 2) w <= 1)%nat as Hle by (vm_compute; lia).
  assert (in_int64 2 /\ bindable morning_fields) as [H64 Hbind].
  { unfold bindable, in_int64. change (2 ^ 63) with 9223372036854775808.
    simpl. lia. }
  destruct (create_schedule_adds_row_and_job 2 morning_fields w
              "Morning" "08:00" "mon,tue,wed,thu,fri,sat,sun" (mkCronTrigger WEEK 8 0)
              H64 Hbind eq_refl eq_refl eq_refl eq_refl Hle)
    as (_ & Hrow & Hold & _ & Hjob).
  split; [|split; [exact Hrow | exact Hjob]].
  apply Hold. vm_compute. reflexivity.
Defined.

(** X6. [create_schedule] writes before it schedules too: with integers
    that SQLite can hold, when the trigger of the new row cannot be
    derived, the call raises the exception of the derivation, the
    row is in the store all the same, and no job is added. *)
Theorem create_schedule_keeps_unscheduled_row
    (rowid : Z) (data : Fields) (w : World) (name time : string) (e : exn) :
  in_int64 rowid ->
  bindable data ->
  f_name data = Some name ->
  f_time data = Some time ->
  let row := row_of_fields rowid name time data in
  derive_trigger row = Raise e ->
  create_schedule rowid data w
    = (Raise e, set_schedules (<[rowid := row]> (schedules w)) w) /\
  schedules (create_schedule rowid data w).2 !! rowid = Some row /\
  jobs (create_schedule rowid data w).2 = jobs w.
Proof.
  intros _ _ Hn Ht row Hd.
  rewrite (create_schedule_named rowid data w name time Hn Ht). fold row.
  rewrite (schedule_job_raises row _ e Hd). simpl.
  split; [done|]. split; [apply lookup_insert_eq|done].
Qed.

Lemma create_schedule_keeps_unscheduled_row_witness :
  let w := world_of {[1 := evening]} device_down in
  (create_schedule 2 unparsed_fields w).1 = Raise ValueError /\
  s_time <$> schedules (create_schedule 2 unparsed_fields w).2 !! 2 = Some "18h30" /\
  jobs (create_schedule 2 unparsed_fields w).2 = [].
Proof.
  intros w.
  assert (in_int64 2 /\ bindable unparsed_fields) as [H64 Hbind].
  { unfold bindable, in_int64. change (2 ^ 63) with 9223372036854775808.
    simpl. lia. }
  destruct (create_schedule_keeps_unscheduled_row 2 unparsed_fields w
              "Evening" "18h30" ValueError H64 Hbind eq_refl eq_refl eq_refl)
    as (Hres & Hrow & Hjobs).
  split; [by rewrite Hres|]. split; [by rewrite Hrow | exact Hjobs].
Defined.

(** X7. A request body without [name], or without [time], makes both
    [create_schedule] and [update_schedule] raise [KeyError] before any
    statement runs: the tables, the jobs and the log are untouched. *)
Theorem schedule_routes_need_name_and_time
    (sid : Z) (data : Fields) (w : World) :
  f_name data = None \/ f_time data = None ->
  create_schedule sid data w = (Raise KeyError, w) /\
  update_schedule sid data w = (Raise KeyError, w).
Proof.
  intros Hmiss.
  unfold create_schedule, update_schedule, mbind, M_bind, lift, subscript.
  destruct (f_name data) as [name|]; [|done].
  destruct (f_time data) as [time|]; [|done].
  by destruct Hmiss.
Qed.

Lemma schedule_routes_need_name_and_time_witness :
  let w := world_of {[1 := evening]} device_down in
  let data := mkFields (Some "Morning") None None None None None None None None in
  create_schedule 2 data w = (Raise KeyError, w) /\
  update_schedule 1 data w = (Raise KeyError, w).
Proof.
  intros w data.
  assert (f_name data = None \/ f_time data = None) as Hmiss by (right; reflexivity).
  destruct (schedule_routes_need_name_and_time 2 data w Hmiss) as [Hcreate _].
  destruct (schedule_routes_need_name_and_time 1 data w Hmiss) as [_ Hupdate].
  split; [exact Hcreate | exact Hupdate].
Defined.

(** ** Loading every schedule at start-up *)

Section Loading.

Implicit Types (l : list Schedule) (w : World) (s : Schedule).

Lemma mapM_schedule_job_cons s l w :
  mapM schedule_job (s :: l) w
  = match schedule_job s w with
    | (Ret y, w1) =>
        match mapM schedule_job l w1 with
        | (Ret k, w2) => (Ret (y :: k), w2)
        | (Raise e, w2) => (Raise e, w2)
        end
    | (Raise e, w1) => (Raise e, w1)
    end.
Proof. reflexivity. Qed.

Lemma load_all_schedules_unfold w :
  load_all_schedules w
  = match mapM schedule_job (stored_rows (schedules w)) w with
    | (Ret _, w') => (Ret tt, w')
    | (Raise e, w') => (Raise e, w')
    end.
Proof. reflexivity. Qed.

(** The reconciles of a list of rows return exactly when every trigger is
    derived. *)
Lemma mapM_schedule_job_returns l w :
  (exists us, (mapM schedule_job l w).1 = Ret us)
  <-> Forall (fun s => exists nt, derive_trigger s = Ret nt) l.
Proof.
  revert w. induction l as [|s l IH]; intros w.
  - split; [constructor|]. intros _. by exists [].
  - rewrite mapM_schedule_job_cons. rewrite Forall_cons.
    destruct (derive_trigger s) as [[names tr]|e] eqn:Hd.
    + destruct (schedule_job_effect s w names tr Hd) as (Hret & _).
      destruct (schedule_job s w) as [[[]|e] w1]; simpl in Hret; [|discriminate Hret].
      rewrite <- (IH w1).
      destruct (mapM schedule_job l w1) as [[us|e] w2]; simpl.
      * split; [intros _; split; by eexists|intros _; by eexists].
      * split; [by intros [us Hus]|]. by intros [_ [us Hus]].
    + rewrite (schedule_job_raises s w e Hd). simpl.
      split; [by intros [us Hus]|]. by intros [[nt Hnt] _].
Qed.

(** Reconciling rows of distinct ids, none of which has a job yet, one
    after the other. *)
Lemma mapM_schedule_job_jobs l w :
  NoDup (s_id <$> l) ->
  Forall (fun s => exists nt, derive_trigger s = Ret nt) l ->
  Forall (fun s => count_id (job_id_of (s_id s)) (jobs w) = 0%nat) l ->
  let w' := (mapM schedule_job l w).2 in
  schedules w' = schedules w /\ config w' = config w /\ sent w' = sent w /\
  (forall jid, Forall (fun s => jid <> job_id_of (s_id s)) l ->
     jobs_with jid (jobs w') = jobs_with jid (jobs w)) /\
  Forall (fun s => forall names tr, derive_trigger s = Ret (names, tr) ->
            jobs_with (job_id_of (s_id s)) (jobs w')
            = if truthy (s_enabled s)
              then [mkJob (job_id_of (s_id s)) tr (s_id s)] else []) l.
Proof.
  revert w. induction l as [|s l IH]; intros w Hnd Hder Hfree w'; subst w'.
  - simpl. repeat split; done.
  - rewrite fmap_cons in Hnd. apply NoDup_cons in Hnd as [Hnotin Hnd].
    apply Forall_cons in Hder as [[[names tr] Hd] Hder].
    apply Forall_cons in Hfree as [Hfree0 Hfree].
    rewrite mapM_schedule_job_cons.
    destruct (schedule_job_effect s w names tr Hd)
      as (Hret & Hsch & Hcfg & _ & Hsent & _ & Hother & Hown).
    specialize (Hown ltac:(lia)).
    destruct (schedule_job s w) as [[[]|e] w1]; simpl in *; [|discriminate Hret].
    assert (Forall (fun s' => job_id_of (s_id s) <> job_id_of (s_id s')) l) as Hdiff.
    { apply Forall_forall. intros s' Hin Heq. apply job_id_of_inj in Heq.
      apply Hnotin. rewrite Heq. apply list_elem_of_fmap. by exists s'. }
    assert (Forall (fun s' => count_id (job_id_of (s_id s')) (jobs w1) = 0%nat) l)
      as Hfree1.
    { apply Forall_forall. intros s' Hin.
      rewrite Forall_forall in Hfree, Hdiff.
      rewrite count_id_filter. fold (jobs_with (job_id_of (s_id s')) (jobs w1)).
      rewrite Hother by (intros Heq; by apply (Hdiff s' Hin)).
      unfold jobs_with. rewrite <- count_id_filter. by apply Hfree. }
    destruct (IH w1 Hnd Hder Hfree1) as (Hsch' & Hcfg' & Hsent' & Hother' & Hown').
    destruct (mapM schedule_job l w1) as [[us|e] w2]; simpl in *.
    + split; [congruence|]. split; [congruence|]. split; [congruence|]. split.
      * intros jid Hjid. apply Forall_cons in Hjid as [Hj0 Hj].
        rewrite (Hother' jid Hj). by apply Hother.
      * apply Forall_cons. split; [|done].
        intros names' tr' Hd'. rewrite Hd in Hd'. injection Hd' as <- <-.
        by rewrite (Hother' _ Hdiff).
    + split; [congruence|]. split; [congruence|]. split; [congruence|]. split.
      * intros jid Hjid. apply Forall_cons in Hjid as [Hj0 Hj].
        rewrite (Hother' jid Hj). by apply Hother.
      * apply Forall_cons. split; [|done].
        intros names' tr' Hd'. rewrite Hd in Hd'. injection Hd' as <- <-.
        by rewrite (Hother' _ Hdiff).
Qed.

Lemma mapM_schedule_job_at_most_one l w k :
  (registered k w <= 1)%nat -> (registered k (mapM schedule_job l w).2 <= 1)%nat.
Proof.
  revert w. induction l as [|s l IH]; intros w Hk; [done|].
  rewrite mapM_schedule_job_cons.
  pose proof (schedule_job_at_most_one s w k Hk) as H1.
  destruct (schedule_job s w) as [[[]|e] w1]; simpl in *; [|done].
  specialize (IH w1 H1).
  by destruct (mapM schedule_job l w1) as [[us|e] w2].
Qed.

Lemma rows_of_store (m : gmap Z Schedule) s :
  s ∈ stored_rows m <-> exists k, m !! k = Some s.
Proof.
  unfold stored_rows. rewrite list_elem_of_fmap. split.
  - intros [[k s'] [-> Hin]]. exists k.
    rewrite (merge_sort_Permutation by_rowid) in Hin.
    by apply elem_of_map_to_list.
  - intros [k Hk]. exists (k, s). split; [done|].
    rewrite (merge_sort_Permutation by_rowid). by apply elem_of_map_to_list.
Qed.

Lemma ids_of_store (m : gmap Z Schedule) :
  well_keyed m -> NoDup (s_id <$> stored_rows m).
Proof.
  intros Hwk. unfold stored_rows.
  assert (s_id <$> (snd <$> merge_sort by_rowid (map_to_list m))
          = fst <$> merge_sort by_rowid (map_to_list m)) as ->.
  { rewrite <- list_fmap_compose. apply list_fmap_ext.
    intros i [k s] Hi. simpl. apply Hwk.
    apply elem_of_map_to_list. rewrite <- (merge_sort_Permutation by_rowid).
    apply list_elem_of_lookup. by exists i. }
  rewrite (merge_sort_Permutation by_rowid). apply NoDup_fst_map_to_list.
Qed.

End Loading.

(** X8. Start-up from an empty job table, on a store whose every row has
    its own id and is readable (a time of two integers, hour 0 to 23 and
    minute 0 to 59, and days that are integers from -7 to 6):
    [load_all_schedules] returns, leaves the tables alone, gives every
    enabled row exactly the job of its trigger and every disabled row none,
    and registers no job that does not come from an enabled row of the
    store. *)
Theorem load_all_schedules_registers_enabled_rows (w : World) :
  jobs w = [] ->
  well_keyed (schedules w) ->
  (forall k s, schedules w !! k = Some s -> readable s) ->
  let w' := (load_all_schedules w).2 in
  (load_all_schedules w).1 = Ret tt /\
  schedules w' = schedules w /\ config w' = config w /\ sent w' = sent w /\
  (forall k s names tr,
     schedules w !! k = Some s -> derive_trigger s = Ret (names, tr) ->
     jobs_with (job_id_of k) (jobs w')
     = if truthy (s_enabled s) then [mkJob (job_id_of k) tr k] else []) /\
  (forall j, j ∈ jobs w' ->
     exists s names tr,
       schedules w !! job_args j = Some s /\ truthy (s_enabled s) = true /\
       derive_trigger s = Ret (names, tr) /\
       j = mkJob (job_id_of (s_id s)) tr (s_id s)).
Proof.
  intros Hjobs Hwk Hread w'. subst w'.
  assert (forall k s, schedules w !! k = Some s -> exists nt, derive_trigger s = Ret nt)
    as Hder.
  { intros k s Hk. apply derive_trigger_readable. eauto. }
  set (rows := stored_rows (schedules w)).
  assert (Forall (fun s => exists nt, derive_trigger s = Ret nt) rows) as Hall.
  { apply Forall_forall. intros s Hin. apply rows_of_store in Hin as [k Hk]. eauto. }
  assert (NoDup (s_id <$> rows)) as Hnd.
  { by apply ids_of_store. }
  assert (Forall (fun s => count_id (job_id_of (s_id s)) (jobs w) = 0%nat) rows)
    as Hfree.
  { apply Forall_forall. intros s _. by rewrite Hjobs. }
  destruct (mapM_schedule_job_jobs rows w Hnd Hall Hfree)
    as (Hsch & Hcfg & Hsent & Hother & Hown).
  apply (mapM_schedule_job_returns rows w) in Hall as [us Hus].
  rewrite load_all_schedules_unfold. fold rows.
  destruct (mapM schedule_job rows w) as [[us'|e] w2]; simpl in *;
    [|discriminate Hus].
  do 4 (split; [done|]).
  assert (forall k s names tr,
            schedules w !! k = Some s -> derive_trigger s = Ret (names, tr) ->
            jobs_with (job_id_of k) (jobs w2)
            = if truthy (s_enabled s) then [mkJob (job_id_of k) tr k] else [])
    as Hrows.
  { intros k s names tr Hk Hd. rewrite Forall_forall in Hown.
    assert (s ∈ rows) as Hin by (apply rows_of_store; eauto).
    rewrite <- (Hwk k s Hk). by apply (Hown s Hin names tr). }
  split; [exact Hrows|].
  intros j Hj.
  destruct (decide (Exists (fun s => job_id j = job_id_of (s_id s)) rows))
    as [Hex|Hnex].
  - apply Exists_exists in Hex as (s & Hin & Hid).
    apply rows_of_store in Hin as [k Hk].
    destruct (Hder k s Hk) as [[names tr] Hd].
    pose proof (Hrows k s names tr Hk Hd) as Hjs.
    pose proof (Hwk k s Hk) as Hsk.
    assert (j ∈ jobs_with (job_id_of k) (jobs w2)) as Hjin.
    { unfold jobs_with. apply list_elem_of_In, List.filter_In. split.
      - by apply list_elem_of_In.
      - unfold has_id. apply bool_decide_eq_true. congruence. }
    rewrite Hjs in Hjin. destruct (truthy (s_enabled s)) eqn:Hen.
    + apply list_elem_of_singleton in Hjin. subst j. simpl.
      exists s, names, tr. rewrite Hsk. done.
    + by apply elem_of_nil in Hjin.
  - exfalso.
    assert (j ∈ jobs_with (job_id j) (jobs w2)) as Hjin.
    { unfold jobs_with. apply list_elem_of_In, List.filter_In. split.
      - by apply list_elem_of_In.
      - unfold has_id. by apply bool_decide_eq_true. }
    rewrite Hother in Hjin.
    + rewrite Hjobs in Hjin. by apply elem_of_nil in Hjin.
    + apply Forall_forall. intros s Hin Heq. apply Hnex.
      apply Exists_exists. by exists s.
Qed.

Lemma load_all_schedules_registers_enabled_rows_witness :
  let w := world_of {[1 := evening; 2 := saturday_off]} device_down in
  (load_all_schedules w).1 = Ret tt /\
  jobs_with "schedule_1" (jobs (load_all_schedules w).2)
    = [mkJob "schedule_1"
         (mkCronTrigger [Monday; Tuesday; Wednesday; Thursday; Friday] 18 30) 1].
Proof.
  intros w.
  assert (well_keyed (schedules w)) as Hwk.
  { intros k s Hk.
    change (schedules w) with ({[1 := evening; 2 := saturday_off]} : gmap Z Schedule)
      in Hk.
    apply lookup_insert_Some in Hk as [[<- <-]|[_ Hk]]; [done|].
    by apply lookup_singleton_Some in Hk as [<- <-]. }
  assert (forall k s, schedules w !! k = Some s -> readable s) as Hder.
  { intros k s Hk. apply derive_trigger_readable.
    change (schedules w) with ({[1 := evening; 2 := saturday_off]} : gmap Z Schedule)
      in Hk.
    apply lookup_insert_Some in Hk as [[<- <-]|[_ Hk]]; [by eexists|].
    apply lookup_singleton_Some in Hk as [<- <-]. by eexists. }
  destruct (load_all_schedules_registers_enabled_rows w eq_refl Hwk Hder)
    as (Hret & _ & _ & _ & Hrows & _).
  split; [exact Hret|].
  apply (Hrows 1 evening "mon,tue,wed,thu,fri"
           (mkCronTrigger [Monday; Tuesday; Wednesday; Thursday; Friday] 18 30));
    reflexivity.
Defined.

(** X9. [load_all_schedules] returns exactly when every stored row is
    readable (a time of two integers, hour 0 to 23 and minute 0 to 59, and
    days that are integers from -7 to 6): one row that is not makes the
    whole start-up call raise. Whatever happens, an id that had at most one
    job keeps at most one. *)
Theorem load_all_schedules_needs_every_row (w : World) :
  ((load_all_schedules w).1 = Ret tt
   <-> forall k s, schedules w !! k = Some s -> readable s) /\
  (forall k s, schedules w !! k = Some s -> ~ readable s ->
               exists e, (load_all_schedules w).1 = Raise e) /\
  (forall jid, (registered jid w <= 1)%nat ->
               (registered jid (load_all_schedules w).2 <= 1)%nat).
Proof.
  pose proof (mapM_schedule_job_returns (stored_rows (schedules w)) w) as Hiff.
  assert ((load_all_schedules w).1 = Ret tt
          <-> forall k s, schedules w !! k = Some s -> readable s) as Hret.
  { rewrite load_all_schedules_unfold.
    rewrite Forall_forall in Hiff. split.
    + intros Hret k s Hk. apply derive_trigger_readable.
      apply Hiff; [|apply rows_of_store; eauto].
      destruct (mapM schedule_job _ w) as [[us|e] w2]; [by eexists|discriminate Hret].
    + intros Hall.
      destruct Hiff as [_ Hback].
      destruct Hback as [us Hus].
      { intros s Hin. apply rows_of_store in Hin as [k Hk].
        apply derive_trigger_readable. eauto. }
      destruct (mapM schedule_job _ w) as [[us'|e] w2]; [done|discriminate Hus]. }
  split; [|split].
  - exact Hret.
  - intros k s Hk Hun.
    destruct ((load_all_schedules w).1) as [[]|e] eqn:Hres; [|by exists e].
    exfalso. apply Hun. destruct Hret as [Hall _]. by apply (Hall eq_refl k s).
  - intros jid Hle. rewrite load_all_schedules_unfold.
    pose proof (mapM_schedule_job_at_most_one
                  (stored_rows (schedules w)) w jid Hle) as H1.
    by destruct (mapM schedule_job _ w) as [[us|e] w2].
Qed.

Lemma load_all_schedules_needs_every_row_witness :
  let w := world_of {[1 := evening; 2 := weekend_unparsed]} device_down in
  well_keyed (schedules w) /\
  (exists e, (load_all_schedules w).1 = Raise e) /\
  (registered "schedule_1" (load_all_schedules w).2 <= 1)%nat.
Proof.
  intros w.
  assert (well_keyed (schedules w)) as Hwk.
  { intros k s Hk.
    change (schedules w) with ({[1 := evening; 2 := weekend_unparsed]} : gmap Z Schedule)
      in Hk.
    apply lookup_insert_Some in Hk as [[<- <-]|[_ Hk]]; [done|].
    by apply lookup_singleton_Some in Hk as [<- <-]. }
  assert (~ readable weekend_unparsed) as Hun.
  { intros Hr. apply derive_trigger_readable in Hr as [nt Hnt]. discriminate Hnt. }
  assert ((registered "schedule_1" w <= 1)%nat) as Hle by (vm_compute; lia).
  destruct (load_all_schedules_needs_every_row w) as (_ & Hraise & Hone).
  split; [exact Hwk|]. split.
  - exact (Hraise 2 weekend_unparsed eq_refl Hun).
  - exact (Hone "schedule_1" Hle).
Defined.

(** ** What a fire touches and what it sends *)

Section Frames.

Implicit Types (w : World) (s : Schedule) (base_url : string).

Lemma same_store_refl w : same_store w w.
Proof. by repeat split. Qed.

Lemma same_store_trans w1 w2 w3 :
  same_store w1 w2 -> same_store w2 w3 -> same_store w1 w3.
Proof.
  intros (H1 & H2 & H3 & H4 & H5) (K1 & K2 & K3 & K4 & K5).
  repeat split; congruence.
Qed.

Lemma keeps_ret {A} (a : A) : keeps_store (mret a : M A).
Proof. intros w. apply same_store_refl. Qed.

Lemma keeps_lift {A} (r : result A) : keeps_store (lift r).
Proof. intros w. apply same_store_refl. Qed.

Lemma keeps_bind {A B} (c : M A) (f : A -> M B) :
  keeps_store c -> (forall a, keeps_store (f a)) -> keeps_store (c ≫= f).
Proof.
  intros Hc Hf w. unfold mbind, M_bind. specialize (Hc w).
  destruct (c w) as [[a|e] w1]; simpl in *; [|done].
  apply (same_store_trans _ w1); [done|apply Hf].
Qed.

Lemma keeps_try {A} (body : M A) caught (handler : exn -> M A) :
  keeps_store body -> (forall e, keeps_store (handler e)) ->
  keeps_store (try_except body caught handler).
Proof.
  intros Hb Hh w. unfold try_except. specialize (Hb w).
  destruct (body w) as [[a|e] w1]; simpl in *; [done|].
  destruct (caught e); [|done].
  apply (same_store_trans _ w1); [done|apply Hh].
Qed.

Lemma keeps_log lv m a : keeps_store (log_at lv m a).
Proof. intros w. by repeat split. Qed.

Lemma keeps_http_get u p : keeps_store (http_get u p).
Proof.
  intros w. unfold http_get.
  destruct (device w (sent w ++ [mkRequest u p 5])); by repeat split.
Qed.

Lemma keeps__set_relay base_url turn_on : keeps_store (_set_relay base_url turn_on).
Proof.
  unfold _set_relay. apply keeps_try; [|intros e; apply keeps_log].
  apply keeps_bind; [apply keeps_http_get|]. intros text.
  case_bool_decide; [|apply keeps_log].
  apply keeps_bind; [apply keeps_http_get|]. intros _. apply keeps_log.
Qed.

Lemma keeps__set_strip base_url s : keeps_store (_set_strip base_url s).
Proof.
  unfold _set_strip. apply keeps_try; [|intros e; apply keeps_log].
  apply keeps_bind; [apply keeps_lift|]. intros p.
  apply keeps_bind; [apply keeps_http_get|]. intros _. apply keeps_log.
Qed.

Lemma keeps_device_steps base_url s : keeps_store (device_steps base_url s).
Proof.
  unfold device_steps. apply keeps_bind.
  - destruct (truthy (s_relay s)); [apply keeps__set_relay|apply keeps_ret].
  - intros _. destruct (truthy (s_strip s)); [apply keeps__set_strip|apply keeps_ret].
Qed.

Lemma same_line_refl w : same_line w w.
Proof. by split. Qed.

Lemma line_ret {A} (a : A) : line_only (mret a : M A).
Proof. by intros w w' H. Qed.

Lemma line_lift {A} (r : result A) : line_only (lift r).
Proof. by intros w w' H. Qed.

Lemma line_bind {A B} (c : M A) (f : A -> M B) :
  line_only c -> (forall a, line_only (f a)) -> line_only (c ≫= f).
Proof.
  intros Hc Hf w w' Hw. unfold mbind, M_bind.
  destruct (Hc w w' Hw) as [Hres Hline].
  destruct (c w) as [[a|e] w1], (c w') as [[a'|e'] w1']; simpl in *;
    try discriminate Hres.
  - injection Hres as ->. by apply Hf.
  - injection Hres as ->. by split.
Qed.

Lemma line_try {A} (body : M A) caught (handler : exn -> M A) :
  line_only body -> (forall e, line_only (handler e)) ->
  line_only (try_except body caught handler).
Proof.
  intros Hb Hh w w' Hw. unfold try_except.
  destruct (Hb w w' Hw) as [Hres Hline].
  destruct (body w) as [[a|e] w1], (body w') as [[a'|e'] w1']; simpl in *;
    try discriminate Hres.
  - by split.
  - injection Hres as ->. destruct (caught e); [by apply Hh|by split].
Qed.

Lemma line_log lv m a : line_only (log_at lv m a).
Proof. by intros w w' H. Qed.

Lemma line_http_get u p : line_only (http_get u p).
Proof.
  intros w w' [Hsent Hdev]. unfold http_get. rewrite Hsent, Hdev.
  destruct (device w (sent w ++ [mkRequest u p 5])); by repeat split.
Qed.

Lemma line__set_relay base_url turn_on : line_only (_set_relay base_url turn_on).
Proof.
  unfold _set_relay. apply line_try; [|intros e; apply line_log].
  apply line_bind; [apply line_http_get|]. intros text.
  case_bool_decide; [|apply line_log].
  apply line_bind; [apply line_http_get|]. intros _. apply line_log.
Qed.

Lemma line__set_strip base_url s : line_only (_set_strip base_url s).
Proof.
  unfold _set_strip. apply line_try; [|intros e; apply line_log].
  apply line_bind; [apply line_lift|]. intros p.
  apply line_bind; [apply line_http_get|]. intros _. apply line_log.
Qed.

Lemma line_device_steps base_url s : line_only (device_steps base_url s).
Proof.
  unfold device_steps. apply line_bind.
  - destruct (truthy (s_relay s)); [apply line__set_relay|apply line_ret].
  - intros _. destruct (truthy (s_strip s)); [apply line__set_strip|apply line_ret].
Qed.

(** [execute_schedule] in its three cases. *)
Lemma execute_schedule_cases sid w :
  (schedules w !! sid = None /\
   execute_schedule sid w
   = log_warning "Schedule %d not found" [AInt sid] w) \/
  (exists s, schedules w !! sid = Some s /\
     (config w !! "esp32_url" = None \/ config w !! "esp32_url" = Some "") /\
     execute_schedule sid w = log_error "ESP32 URL not configured" [] w) \/
  (exists s base_url, schedules w !! sid = Some s /\
     config w !! "esp32_url" = Some base_url /\ base_url <> "" /\
     execute_schedule sid w
     = device_steps base_url s
         (log_info "Executing schedule '%s' (action=%s)"
                   [AStr (s_name s); AStr (s_action s)] w).2).
Proof.
  destruct (schedules w !! sid) as [s|] eqn:Hs.
  2: { left. split; [done|]. by apply execute_schedule_no_row. }
  right. destruct (config w !! "esp32_url") as [base_url|] eqn:Hc.
  2: { left. exists s. split; [done|]. split; [by left|].
       by apply (execute_schedule_no_url sid s). }
  destruct (decide (base_url = "")) as [->|Hne].
  - left. exists s. split; [done|]. split; [by right|].
    unfold execute_schedule, mbind, M_bind, select_schedule, get_config.
    by rewrite Hs, Hc.
  - right. exists s, base_url. do 3 (split; [done|]).
    by apply execute_schedule_configured.
Qed.

(** The requests of the two device steps. *)
Lemma device_steps_sent base_url s w :
  exists relay_part strip_part,
    sent (device_steps base_url s w).2 = sent w ++ relay_part ++ strip_part /\
    (if truthy (s_relay s)
     then relay_part = [status_call base_url] \/
          relay_part = [status_call base_url; toggle_call base_url]
     else relay_part = []) /\
    (if truthy (s_strip s)
     then match strip_params s with
          | Ret p => strip_part = [strip_call base_url p]
          | Raise _ => strip_part = []
          end
     else strip_part = []).
Proof.
  unfold device_steps, mbind, M_bind.
  assert (exists relay_part w1,
            (if truthy (s_relay s)
             then _set_relay base_url (bool_decide (s_action s = "on"))
             else pass) w = (Ret tt, w1) /\
            sent w1 = sent w ++ relay_part /\
            (if truthy (s_relay s)
             then relay_part = [status_call base_url] \/
                  relay_part = [status_call base_url; toggle_call base_url]
             else relay_part = []))
    as (relay_part & w1 & -> & Hsent1 & Hrelay).
  { destruct (truthy (s_relay s)).
    - destruct (_set_relay_cases base_url (bool_decide (s_action s = "on")) w)
        as (Hret & _ & _ & _ & _ & Hcase).
      destruct (_set_relay base_url (bool_decide (s_action s = "on")) w)
        as [r w1] eqn:Hrun. simpl in *. subst r.
      destruct (device w (sent w ++ [status_call base_url])) as [text|f].
      + case_bool_decide.
        * destruct Hcase as [Hs _]. exists [status_call base_url], w1. eauto.
        * destruct Hcase as [Hs _].
          exists [status_call base_url; toggle_call base_url], w1. eauto.
      + destruct Hcase as [Hs _]. exists [status_call base_url], w1. eauto.
    - exists [], w. split; [done|]. by rewrite app_nil_r. }
  exists relay_part.
  destruct (truthy (s_strip s)).
  - destruct (strip_params s) as [p|e] eqn:Hp.
    + destruct (_set_strip_cases base_url s w1 p Hp) as (_ & Hsent & _).
      exists [strip_call base_url p]. rewrite Hsent, Hsent1.
      by rewrite <- app_assoc.
    + destruct (_set_strip_undecoded base_url s w1 e Hp) as [-> _].
      exists []. simpl. by rewrite app_nil_r.
  - exists []. simpl. by rewrite app_nil_r.
Qed.

Lemma strip_params_reads s s' :
  s_action s' = s_action s -> s_color s' = s_color s ->
  s_brightness s' = s_brightness s ->
  strip_params s' = strip_params s.
Proof. intros Ha Hc Hb. unfold strip_params. by rewrite Ha, Hc, Hb. Qed.

Lemma device_steps_reads base_url s s' :
  s_action s' = s_action s -> s_color s' = s_color s ->
  s_brightness s' = s_brightness s ->
  s_relay s' = s_relay s -> s_strip s' = s_strip s ->
  device_steps base_url s' = device_steps base_url s.
Proof.
  intros Ha Hc Hb Hr Hs. unfold device_steps, _set_strip.
  by rewrite (strip_params_reads s s' Ha Hc Hb), Ha, Hr, Hs.
Qed.

End Frames.

Section Fires.

Implicit Types (w : World) (s : Schedule) (base_url : string).

Lemma strip_is_not_relay base_url : base_url +:+ "/strip" <> base_url +:+ "/relay".
Proof.
  induction base_url as [|c t IH]; simpl; [discriminate|].
  intros H. injection H as H. by apply IH.
Qed.

Lemma toggle_calls_app base_url (l l' : list Request) :
  toggle_calls base_url (l ++ l')
  = (toggle_calls base_url l + toggle_calls base_url l')%nat.
Proof. unfold toggle_calls. by rewrite List.filter_app, length_app. Qed.

Lemma toggle_calls_strip base_url p : toggle_calls base_url [strip_call base_url p] = 0%nat.
Proof.
  unfold toggle_calls, strip_call. simpl.
  rewrite bool_decide_eq_false_2; [done|]. apply strip_is_not_relay.
Qed.

(** The requests of a fire on a configured device. *)
Lemma execute_schedule_parts sid s base_url w :
  schedules w !! sid = Some s ->
  config w !! "esp32_url" = Some base_url ->
  base_url <> "" ->
  exists relay_part strip_part,
    sent (execute_schedule sid w).2 = sent w ++ relay_part ++ strip_part /\
    (if truthy (s_relay s)
     then relay_part = [status_call base_url] \/
          relay_part = [status_call base_url; toggle_call base_url]
     else relay_part = []) /\
    (if truthy (s_strip s)
     then match strip_params s with
          | Ret p => strip_part = [strip_call base_url p]
          | Raise _ => strip_part = []
          end
     else strip_part = []).
Proof.
  intros Hs Hc Hne.
  rewrite (execute_schedule_configured sid s base_url w Hs Hc Hne).
  fold (device_steps base_url s).
  apply (device_steps_sent base_url s
           (log_info "Executing schedule '%s' (action=%s)"
                     [AStr (s_name s); AStr (s_action s)] w).2).
Qed.

(** A fire that stops at one of its guards sends nothing. *)
Lemma execute_schedule_guarded sid w :
  schedules w !! sid = None \/ config w !! "esp32_url" = None \/
  config w !! "esp32_url" = Some "" ->
  sent (execute_schedule sid w).2 = sent w.
Proof.
  intros Hguard.
  destruct (execute_schedule_cases sid w)
    as [[_ ->]|[(s & _ & _ & ->)|(s & base_url & Hs & Hc & Hne & _)]]; [done|done|].
  destruct Hguard as [H|[H|H]]; congruence.
Qed.

End Fires.

(** X10. Firing a schedule and testing an action only talk to the device
    and write to the log: neither changes a row of the store, a
    configuration value or a registered job. *)
Theorem firing_keeps_store :
  (forall sid w, same_store w (execute_schedule sid w).2) /\
  (forall action data w, same_store w (test_action action data w).2).
Proof.
  split.
  - intros sid w.
    destruct (execute_schedule_cases sid w)
      as [[_ ->]|[(s & _ & _ & ->)|(s & base_url & _ & _ & _ & ->)]].
    + apply keeps_log.
    + apply keeps_log.
    + apply (same_store_trans _
               (log_info "Executing schedule '%s' (action=%s)"
                         [AStr (s_name s); AStr (s_action s)] w).2).
      * apply keeps_log.
      * apply keeps_device_steps.
  - intros action data. change (keeps_store (test_action action data)).
    unfold test_action. apply keeps_bind; [intros w; apply same_store_refl|].
    intros [[|c t]|]; try apply keeps_ret.
    apply keeps_bind.
    { destruct (truthy _); [apply keeps__set_relay|apply keeps_ret]. }
    intros _. apply keeps_bind; [|intros _; apply keeps_ret].
    destruct (truthy _); [apply keeps__set_strip|apply keeps_ret].
Qed.

(** X11. One fire makes one attempt: it adds at most three requests to
    those already issued, each with a timeout of 5 seconds, each to the
    relay status, relay toggle or strip path under the configured URL, and
    at most one of them is a toggle. *)
Theorem execute_schedule_sends_at_most_three (sid : Z) (w : World) :
  let new := issued_by (execute_schedule sid) w in
  sent (execute_schedule sid w).2 = sent w ++ new /\
  (List.length new <= 3)%nat /\
  Forall (fun r => timeout r = 5) new /\
  (forall base_url, config w !! "esp32_url" = Some base_url ->
     (toggle_calls base_url new <= 1)%nat /\
     Forall (fun r => url r = base_url +:+ "/relaystatus" \/
                      url r = base_url +:+ "/relay" \/
                      url r = base_url +:+ "/strip") new).
Proof.
  intros new. subst new. unfold issued_by.
  assert (forall u, sent w ++ drop (List.length (sent w)) (sent w) = sent w /\
            (List.length (drop (List.length (sent w)) (sent w)) <= 3)%nat /\
            Forall (fun r => timeout r = 5) (drop (List.length (sent w)) (sent w)) /\
            (toggle_calls u (drop (List.length (sent w)) (sent w)) <= 1)%nat /\
            Forall (fun r => url r = u +:+ "/relaystatus" \/
                             url r = u +:+ "/relay" \/
                             url r = u +:+ "/strip")
                   (drop (List.length (sent w)) (sent w))) as Hnil.
  { intros u. rewrite drop_all, app_nil_r.
    split; [done|]. split; [simpl; lia|]. split; [constructor|].
    split; [unfold toggle_calls; simpl; lia|constructor]. }
  assert (schedules w !! sid = None \/ config w !! "esp32_url" = None \/
          config w !! "esp32_url" = Some "" ->
          sent (execute_schedule sid w).2
            = sent w ++ drop (List.length (sent w)) (sent (execute_schedule sid w).2) /\
          (List.length (drop (List.length (sent w)) (sent (execute_schedule sid w).2))
           <= 3)%nat /\
          Forall (fun r => timeout r = 5)
            (drop (List.length (sent w)) (sent (execute_schedule sid w).2)) /\
          (forall base_url, config w !! "esp32_url" = Some base_url ->
             (toggle_calls base_url
                (drop (List.length (sent w)) (sent (execute_schedule sid w).2)) <= 1)%nat /\
             Forall (fun r => url r = base_url +:+ "/relaystatus" \/
                              url r = base_url +:+ "/relay" \/
                              url r = base_url +:+ "/strip")
               (drop (List.length (sent w)) (sent (execute_schedule sid w).2))))
    as Hguarded.
  { intros Hg. rewrite (execute_schedule_guarded sid w Hg).
    destruct (Hnil "") as (H1 & H2 & H3 & _).
    split; [done|]. split; [done|]. split; [done|].
    intros b _. by destruct (Hnil b) as (_ & _ & _ & H4 & H5). }
  destruct (schedules w !! sid) as [s|] eqn:Hs; [|apply Hguarded; by left].
  destruct (config w !! "esp32_url") as [base_url|] eqn:Hc;
    [|apply Hguarded; right; by left].
  destruct (decide (base_url = "")) as [->|Hne];
    [apply Hguarded; right; by right|].
  clear Hnil Hguarded.
  destruct (execute_schedule_parts sid s base_url w Hs Hc Hne)
    as (relay_part & strip_part & -> & Hrelay & Hstrip).
  rewrite drop_app_length.
  assert (relay_part = [] \/ relay_part = [status_call base_url] \/
          relay_part = [status_call base_url; toggle_call base_url]) as Hr.
  { destruct (truthy (s_relay s)); [right; exact Hrelay|by left]. }
  assert (strip_part = [] \/ exists p, strip_part = [strip_call base_url p]) as Hp.
  { destruct (truthy (s_strip s)); [|by left].
    destruct (strip_params s) as [p|e]; [right; by exists p|by left]. }
  split; [done|].
  destruct Hr as [->|[->| ->]]; destruct Hp as [->|[p ->]]; simpl.
  all: split; [lia|].
  all: split; [repeat constructor|].
  all: intros b [= <-].
  all: split;
    [|repeat (apply Forall_cons; split;
              [first [left; reflexivity
                     |right; left; reflexivity
                     |right; right; reflexivity]|]);
      apply Forall_nil].
  all: unfold toggle_calls, status_call, toggle_call, strip_call; simpl;
       rewrite ?(bool_decide_eq_false_2 _ (relaystatus_is_not_relay base_url)),
               ?(bool_decide_eq_false_2 _ (strip_is_not_relay base_url)),
               ?(bool_decide_eq_true_2 _ (eq_refl (base_url +:+ "/relay")));
       simpl; lia.
Qed.

(** X12. A fire sends nothing exactly when the row is missing, or the URL
    is missing or empty, or the row asks for no relay step and either for
    no strip step or is not decodable: its action is [on] and the first
    six characters of its colour after the leading [#]s are not three
    pairs that [int(.., 16)] reads. *)
Theorem execute_schedule_silent_exactly_when (sid : Z) (w : World) :
  issued_by (execute_schedule sid) w = [] <->
  schedules w !! sid = None \/
  config w !! "esp32_url" = None \/
  config w !! "esp32_url" = Some "" \/
  exists s, schedules w !! sid = Some s /\ truthy (s_relay s) = false /\
            (truthy (s_strip s) = false \/ ~ decodable s).
Proof.
  unfold issued_by.
  destruct (schedules w !! sid) as [s|] eqn:Hs.
  2: { rewrite (execute_schedule_guarded sid w) by (by left).
       rewrite drop_all. split; [by left|done]. }
  destruct (config w !! "esp32_url") as [base_url|] eqn:Hc.
  2: { rewrite (execute_schedule_guarded sid w) by (right; by left).
       rewrite drop_all. split; [right; by left|done]. }
  destruct (decide (base_url = "")) as [->|Hne].
  { rewrite (execute_schedule_guarded sid w) by (right; by right).
    rewrite drop_all. split; [right; right; by left|done]. }
  destruct (execute_schedule_parts sid s base_url w Hs Hc Hne)
    as (relay_part & strip_part & -> & Hrelay & Hstrip).
  rewrite drop_app_length. split.
  - intros Hnil. apply app_eq_nil in Hnil as [-> ->].
    right; right; right. exists s. split; [done|].
    destruct (truthy (s_relay s)); [by destruct Hrelay|]. split; [done|].
    destruct (truthy (s_strip s)); [|by left]. right.
    intros Hdec. apply strip_params_decodable in Hdec as [p Hp].
    by rewrite Hp in Hstrip.
  - intros [H|[H|[H|(s' & Hs' & Hr & Hp)]]]; try congruence.
    injection Hs' as <-. rewrite Hr in Hrelay. subst relay_part. simpl.
    destruct (truthy (s_strip s)); [|done].
    destruct Hp as [Hp|Hp]; [done|].
    destruct (strip_params s) as [p|e] eqn:Hsp; [|done].
    exfalso. apply Hp. apply strip_params_decodable. by exists p.
Qed.

(** X13. [test_action] without a usable URL answers the 400 error and
    changes nothing. With one, it drives the device exactly as a fire of a
    stored schedule with the same action, flags, brightness and colour
    would: the same requests are issued, it answers [ok] when the fire
    returns and raises what the fire raises. *)
Theorem test_action_acts_like_a_fire :
  (forall action data w,
     config w !! "esp32_url" = None \/ config w !! "esp32_url" = Some "" ->
     test_action action data w = (Ret (Error400 "ESP32 URL not configured"), w)) /\
  (forall sid s action data w base_url,
     schedules w !! sid = Some s ->
     config w !! "esp32_url" = Some base_url ->
     base_url <> "" ->
     s_action s = action ->
     s_relay s = default 1 (f_relay data) ->
     s_strip s = default 1 (f_strip data) ->
     s_brightness s = default 255 (f_brightness data) ->
     s_color s = default "#ffffff" (f_color data) ->
     sent (test_action action data w).2 = sent (execute_schedule sid w).2 /\
     (test_action action data w).1
     = match (execute_schedule sid w).1 with
       | Ret _ => Ret (Ok200 action)
       | Raise e => Raise e
       end).
Proof.
  split.
  - intros action data w Hc. unfold test_action, mbind, M_bind, get_config.
    by destruct Hc as [-> | ->].
  - intros sid s action data w base_url Hs Hc Hne Ha Hr Hst Hb Hcol.
    set (s' := mkSchedule 0 "" "" "" action
                 (default 1 (f_relay data)) (default 1 (f_strip data))
                 (default 255 (f_brightness data))
                 (default "#ffffff" (f_color data)) 0).
    assert (test_action action data w
            = match device_steps base_url s' w with
              | (Ret _, w2) => (Ret (Ok200 action), w2)
              | (Raise e, w2) => (Raise e, w2)
              end) as Htest.
    { unfold test_action, mbind at 1, M_bind at 1, get_config. rewrite Hc.
      destruct base_url as [|c t]; [done|].
      unfold device_steps, mbind, M_bind. fold s'.
      change (s_action s') with action.
      destruct ((if truthy (s_relay s')
                 then _set_relay (String c t) (bool_decide (action = "on"))
                 else pass) w) as [[[]|e] w1]; [|done].
      by destruct ((if truthy (s_strip s')
                    then _set_strip (String c t) s' else pass) w1) as [[[]|e] w2]. }
    assert (device_steps base_url s' = device_steps base_url s) as Hsame.
    { apply device_steps_reads; subst s'; simpl; congruence. }
    rewrite Htest, Hsame.
    rewrite (execute_schedule_configured sid s base_url w Hs Hc Hne).
    fold (device_steps base_url s).
    set (w0 := (log_info "Executing schedule '%s' (action=%s)"
                  [AStr (s_name s); AStr (s_action s)] w).2).
    destruct (line_device_steps base_url s w w0 (same_line_refl w))
      as [Hres [Hsent _]].
    destruct (device_steps base_url s w) as [[[]|e] w2],
             (device_steps base_url s w0) as [[[]|e'] w2']; simpl in *;
      try discriminate Hres; [done|].
    injection Hres as ->. done.
Qed.

Lemma test_action_acts_like_a_fire_witness :
  let w := world_of {[1 := evening]} (device_saying "OFF") in
  test_action "on" evening_fields (set_config ∅ w)
    = (Ret (Error400 "ESP32 URL not configured"), set_config ∅ w) /\
  sent (test_action "on" evening_fields w).2
    = [status_call "http://192.168.1.100";
       toggle_call "http://192.168.1.100";
       strip_call "http://192.168.1.100" (solid 128 17 34 51)] /\
  (test_action "on" evening_fields w).1 = Ret (Ok200 "on").
Proof.
  intros w.
  destruct test_action_acts_like_a_fire as [Hnone Hfire].
  split.
  - apply Hnone. left. reflexivity.
  - assert ("http://192.168.1.100" <> "") as Hne by discriminate.
    destruct (Hfire 1 evening "on" evening_fields w "http://192.168.1.100"
                eq_refl eq_refl Hne eq_refl eq_refl eq_refl eq_refl eq_refl)
      as [Hsent Hres].
    split; [rewrite Hsent | rewrite Hres]; vm_compute; reflexivity.
Defined.

Lemma execute_schedule_sends_at_most_three_witness :
  let w := world_of {[1 := evening]} (device_saying "OFF") in
  (List.length (issued_by (execute_schedule 1) w) <= 3)%nat /\
  (toggle_calls "http://192.168.1.100" (issued_by (execute_schedule 1) w) <= 1)%nat.
Proof.
  intros w.
  destruct (execute_schedule_sends_at_most_three 1 w) as (_ & Hlen & _ & Hurl).
  split; [exact Hlen|].
  destruct (Hurl "http://192.168.1.100" eq_refl) as [Htog _]. exact Htog.
Defined.

Lemma execute_schedule_silent_exactly_when_witness :
  let w := set_config {["esp32_url" := ""]} (world_of {[1 := evening]} device_down) in
  issued_by (execute_schedule 1) w = [].
Proof.
  intros w.
  apply (execute_schedule_silent_exactly_when 1 w).
  right. right. left. reflexivity.
Defined.

(** ** Times, days and colours at their limits *)

Section Limits.

Implicit Types (s : Schedule) (w : World).

Lemma split_length sep t : List.length (Py.split sep t) = S (count_char sep t).
Proof.
  induction t as [|c t IH]; simpl; [done|].
  case_bool_decide; simpl; [by rewrite IH|].
  destruct (Py.split sep t) as [|x xs]; simpl in *; [lia|done].
Qed.

Lemma int16_raises t e : int16 t = Raise e -> e = ValueError.
Proof. unfold int16. destruct (Py.int 16 t); [done|by intros [= <-]]. Qed.

Lemma lstrip_keeps c t : c <> "#"%char -> Py.lstrip "#" (String c t) = String c t.
Proof. intros Hc. unfold Py.lstrip. simpl. by rewrite bool_decide_eq_false_2. Qed.

Lemma slices_of_six c1 c2 c3 c4 c5 c6 rest :
  let colour := String c1 (String c2 (String c3 (String c4 (String c5 (String c6 rest))))) in
  let six := String c1 (String c2 (String c3 (String c4
               (String c5 (String c6 EmptyString))))) in
  Py.slice 0 2 colour = Py.slice 0 2 six /\
  Py.slice 2 4 colour = Py.slice 2 4 six /\
  Py.slice 4 6 colour = Py.slice 4 6 six.
Proof. by destruct rest. Qed.

Lemma lstrip_drops_hashes n t : Py.lstrip "#" (hashes n +:+ t) = Py.lstrip "#" t.
Proof. induction n as [|n IH]; [done|]. exact IH. Qed.

End Limits.

(** X14. Day numbers follow Python's indexing of the seven names: exactly
    the numbers from -7 to 6 name a day, a negative one naming the day of
    the number plus seven, so that -1 is Sunday. A schedule whose time is
    two integers, an hour from 0 to 23 and a minute from 0 to 59, and whose
    days are integers all within these bounds gets the trigger of that hour
    and minute on the days taken modulo seven; one number outside them,
    with a time that splits in two and days that are all integers, makes
    the derivation raise [IndexError]. *)
Theorem day_numbers_from_minus_seven_to_six :
  (forall d, (exists n, getitem DAY_NAMES d = Ret n) <-> -7 <= d <= 6) /\
  (forall d, -7 <= d < 0 -> getitem DAY_NAMES d = getitem DAY_NAMES (d + 7)) /\
  (forall s hour minute h m ds wds,
     Py.split ":" (s_time s) = [hour; minute] ->
     int10 hour = Ret h -> int10 minute = Ret m ->
     0 <= h <= 23 -> 0 <= m <= 59 ->
     mapM int10 (Py.split "," (s_days s)) = Ret ds ->
     Forall (fun d => -7 <= d <= 6) ds ->
     mapM weekday_of_index ((fun d => d mod 7) <$> ds) = Some wds ->
     exists names, derive_trigger s = Ret (names, mkCronTrigger wds h m)) /\
  (forall s hm ds,
     unpack2 (Py.split ":" (s_time s)) = Ret hm ->
     mapM int10 (Py.split "," (s_days s)) = Ret ds ->
     Exists (fun d => ~ (-7 <= d <= 6)) ds ->
     derive_trigger s = Raise IndexError).
Proof.
  split; [|split; [|split]].
  - intros d. split.
    + intros [n Hn]. destruct (decide (-7 <= d <= 6)) as [Hd|Hd]; [done|].
      destruct (getitem_DAY_NAMES d) as [_ Hout]. rewrite (Hout Hd) in Hn.
      discriminate Hn.
    + intros Hd. destruct (getitem_DAY_NAMES d) as [Hin _].
      destruct (Hin Hd) as [Heq [wd Hwd]].
      destruct (day_name_of_index _ wd Hwd) as (n & Hn & _).
      exists n. by rewrite Heq.
  - intros d Hd.
    destruct (getitem_DAY_NAMES d) as [Hin _].
    destruct (Hin ltac:(lia)) as [-> _].
    destruct (getitem_DAY_NAMES (d + 7)) as [Hin' _].
    destruct (Hin' ltac:(lia)) as [-> _].
    assert ((d + 7) mod 7 = d mod 7) as Hmod.
    { rewrite <- (Z.mod_add d 1 7) by lia. f_equal; lia. }
    by rewrite Hmod.
  - intros s hour minute h m ds wds Ht Hh Hm Hhr Hmr Hds Hrange Hwds.
    assert (ds <> []) as Hne.
    { apply mapM_result_length in Hds. intros ->.
      by destruct (Py.split "," (s_days s)) eqn:Hsp;
        [apply split_nonempty in Hsp|]. }
    assert ((fun d => d mod 7) <$> ds <> []) as Hne' by (by destruct ds).
    destruct (day_names_of_indices _ wds Hne' Hwds) as (names & Hnames & Hread).
    rewrite <- (mapM_getitem_mod ds Hrange) in Hnames.
    exists (Py.join "," names).
    by apply (derive_trigger_read s hour minute h m ds names wds).
  - intros s [hour minute] ds Ht Hds Hout.
    unfold derive_trigger. rewrite Ht.
    unfold mbind at 1, result_bind at 1. rewrite Hds.
    unfold mbind at 1, result_bind at 1. by rewrite (mapM_getitem_out ds Hout).
Qed.

Lemma day_numbers_from_minus_seven_to_six_witness :
  getitem DAY_NAMES (-1) = getitem DAY_NAMES 6 /\
  (exists names, derive_trigger saturday_off
                 = Ret (names, mkCronTrigger [Saturday; Sunday] 9 5)) /\
  derive_trigger (mkSchedule 3 "Never" "07:00" "1,7" "on" 1 1 255 "#ffffff" 1)
    = Raise IndexError.
Proof.
  destruct day_numbers_from_minus_seven_to_six as (_ & Hneg & Hin & Hout).
  split; [|split].
  - apply (Hneg (-1)). lia.
  - apply (Hin saturday_off "09" "05" 9 5 [-2; 6]);
      first [reflexivity | lia | repeat constructor; lia].
  - apply (Hout _ ("07", "00") [1; 7]); [reflexivity|reflexivity|].
    apply Exists_cons_tl, Exists_cons_hd. lia.
Defined.

(** X15. The time must hold exactly one colon: with none, or with two or
    more, as in a time with seconds, the derivation raises [ValueError]
    and [schedule_job] raises it without touching the world; with one, the
    time splits into its two fields. *)
Theorem time_needs_exactly_one_colon (s : Schedule) :
  (count_char ":" (s_time s) <> 1%nat ->
     derive_trigger s = Raise ValueError /\
     forall w, schedule_job s w = (Raise ValueError, w)) /\
  (count_char ":" (s_time s) = 1%nat ->
     exists hour minute, Py.split ":" (s_time s) = [hour; minute]).
Proof.
  pose proof (split_length ":" (s_time s)) as Hlen.
  split.
  - intros Hne.
    assert (derive_trigger s = Raise ValueError) as Hd.
    { unfold derive_trigger.
      destruct (Py.split ":" (s_time s)) as [|a [|b [|c l]]]; simpl in *;
        try done. lia. }
    split; [done|]. intros w. by apply schedule_job_raises.
  - intros H1. rewrite H1 in Hlen.
    destruct (Py.split ":" (s_time s)) as [|a [|b [|c l]]]; simpl in *;
      try lia. by exists a, b.
Qed.

Lemma time_needs_exactly_one_colon_witness :
  let s := mkSchedule 3 "Seconds" "18:30:00" "0" "on" 1 1 255 "#ffffff" 1 in
  derive_trigger s = Raise ValueError /\
  exists hour minute, Py.split ":" (s_time evening) = [hour; minute].
Proof.
  intros s. split.
  - destruct (time_needs_exactly_one_colon s) as [Hbad _].
    assert (count_char ":" (s_time s) <> 1%nat) as Hne by (vm_compute; lia).
    destruct (Hbad Hne) as [Hd _]. exact Hd.
  - destruct (time_needs_exactly_one_colon evening) as [_ Hgood].
    apply Hgood. reflexivity.
Defined.

(** X16. Only the first six characters after the leading [#]s count in a
    colour: any number of [#] in front and anything behind the six
    characters change nothing to the parameters of the strip call. *)
Theorem colour_reads_six_characters
    (s s' : Schedule) (n : nat) (c1 c2 c3 c4 c5 c6 : ascii) (rest : string) :
  c1 <> "#"%char ->
  s_action s' = s_action s ->
  s_brightness s' = s_brightness s ->
  s_color s = hashes n +:+ string_of_list_ascii [c1; c2; c3; c4; c5; c6] +:+ rest ->
  s_color s' = string_of_list_ascii [c1; c2; c3; c4; c5; c6] ->
  strip_params s = strip_params s' /\
  forall base_url w, _set_strip base_url s w = _set_strip base_url s' w.
Proof.
  intros Hc1 Ha Hb Hcol Hcol'.
  assert (strip_params s = strip_params s') as Hp.
  { unfold strip_params. rewrite Ha, Hb, Hcol, Hcol'. rewrite lstrip_drops_hashes.
    change (string_of_list_ascii [c1; c2; c3; c4; c5; c6] +:+ rest)
      with (String c1 (String c2 (String c3 (String c4 (String c5 (String c6 rest)))))).
    change (string_of_list_ascii [c1; c2; c3; c4; c5; c6])
      with (String c1 (String c2 (String c3 (String c4
             (String c5 (String c6 EmptyString)))))).
    rewrite !(lstrip_keeps c1 _ Hc1).
    by destruct (slices_of_six c1 c2 c3 c4 c5 c6 rest) as (-> & -> & ->). }
  split; [done|]. intros base_url w. unfold _set_strip. by rewrite Hp.
Qed.

Lemma colour_reads_six_characters_witness :
  strip_params (mkSchedule 1 "Evening" "18:30" "0" "on" 1 1 128 "##112233ff" 1)
  = Ret (solid 128 17 34 51).
Proof.
  assert ("1"%char <> "#"%char) as Hne by discriminate.
  destruct (colour_reads_six_characters
              (mkSchedule 1 "Evening" "18:30" "0" "on" 1 1 128 "##112233ff" 1)
              (mkSchedule 1 "Evening" "18:30" "0" "on" 1 1 128 "112233" 1)
              2 "1" "1" "2" "2" "3" "3" "ff" Hne eq_refl eq_refl eq_refl eq_refl)
    as [Hp _].
  rewrite Hp. reflexivity.
Defined.

(** X17. With action [on], a colour that has fewer than five characters
    after its leading [#]s, the empty colour included, cannot be decoded:
    the strip step raises [ValueError] before any request or log record.
    *)
Theorem short_colour_raises (s : Schedule) :
  s_action s = "on" ->
  (String.length (Py.lstrip "#" (s_color s)) <= 4)%nat ->
  strip_params s = Raise ValueError /\
  forall base_url w, _set_strip base_url s w = (Raise ValueError, w).
Proof.
  intros Hon Hlen.
  assert (strip_params s = Raise ValueError) as Hp.
  { unfold strip_params. rewrite bool_decide_eq_true_2 by done.
    assert (int16 (Py.slice 4 6 (Py.lstrip "#" (s_color s))) = Raise ValueError)
      as Hb.
    { destruct (Py.lstrip "#" (s_color s)) as [|a [|b [|c [|d [|e t]]]]];
        simpl in Hlen; try lia; reflexivity. }
    unfold mbind, result_bind.
    destruct (int16 (Py.slice 0 2 _)) as [r|e] eqn:Hr;
      [|by rewrite (int16_raises _ _ Hr)].
    destruct (int16 (Py.slice 2 4 _)) as [g|e] eqn:Hg;
      [|by rewrite (int16_raises _ _ Hg)].
    by rewrite Hb. }
  split; [done|]. intros base_url w.
  by destruct (_set_strip_undecoded base_url s w ValueError Hp).
Qed.

Lemma short_colour_raises_witness :
  let s := mkSchedule 1 "Evening" "18:30" "0" "on" 1 1 128 "#fff" 1 in
  _set_strip "http://192.168.1.100" s (world_of {[1 := s]} (device_saying "OK"))
  = (Raise ValueError, world_of {[1 := s]} (device_saying "OK")).
Proof.
  intros s.
  assert (String.length (Py.lstrip "#" (s_color s)) <= 4)%nat as Hlen
    by (vm_compute; lia).
  destruct (short_colour_raises s eq_refl Hlen) as [_ Hstrip].
  apply Hstrip.
Defined.

(** ** Configuration *)

Section Configuration.

Implicit Types (w : World) (data : list (string * string)).

Lemma mapM_M_cons {A B} (f : A -> M B) (x : A) (l : list A) w :
  mapM f (x :: l) w
  = match f x w with
    | (Ret y, w1) =>
        match mapM f l w1 with
        | (Ret k, w2) => (Ret (y :: k), w2)
        | (Raise e, w2) => (Raise e, w2)
        end
    | (Raise e, w1) => (Raise e, w1)
    end.
Proof. reflexivity. Qed.

Lemma bind_returned {A B} (c : M A) (f : A -> M B) w (a : A) w1 :
  c w = (Ret a, w1) -> (c ≫= f) w = f a w1.
Proof. intros Hc. unfold mbind, M_bind. by rewrite Hc. Qed.

Lemma save_config_unfold data w :
  save_config data w = (Ret data, set_config (foldl put (config w) data) w).
Proof.
  assert (forall l w0, exists us,
            mapM (fun kv => insert_or_replace_config kv.1 kv.2) l w0
            = (Ret us, set_config (foldl put (config w0) l) w0)) as Hloop.
  { induction l as [|kv l IH]; intros w0.
    - exists []. by destruct w0.
    - destruct (IH (set_config (<[kv.1 := kv.2]> (config w0)) w0)) as [us Hus].
      exists (tt :: us). rewrite mapM_M_cons. cbv beta.
      unfold insert_or_replace_config at 1. by rewrite Hus. }
  destruct (Hloop data w) as [us Hus].
  unfold save_config. by rewrite (bind_returned _ _ w us _ Hus).
Qed.

Lemma foldl_put_other (m : gmap string string) data k :
  k ∉ data.*1 -> foldl put m data !! k = m !! k.
Proof.
  revert m. induction data as [|[k' v'] data IH]; intros m Hk; simpl; [done|].
  rewrite fmap_cons, not_elem_of_cons in Hk. destruct Hk as [Hne Hk].
  rewrite (IH _ Hk). unfold put. simpl. by rewrite lookup_insert_ne.
Qed.

End Configuration.

(** X18. [save_config] answers with the object it was given and touches
    nothing but the configuration: a key that the object does not hold
    keeps its value, and a key that it holds reads back, through
    [get_config], as the value given for it last. *)
Theorem save_config_reads_back (data : list (string * string)) (w : World) :
  let w' := (save_config data w).2 in
  (save_config data w).1 = Ret data /\
  schedules w' = schedules w /\ jobs w' = jobs w /\ sent w' = sent w /\
  (forall k, k ∉ data.*1 -> config w' !! k = config w !! k) /\
  (forall before k v later,
     data = before ++ (k, v) :: later -> k ∉ later.*1 ->
     get_config k w' = (Ret (Some v), w')).
Proof.
  intros w'. subst w'. rewrite save_config_unfold. simpl.
  do 4 (split; [done|]). split.
  - intros k Hk. by apply foldl_put_other.
  - intros before k v later -> Hk. unfold get_config. simpl.
    rewrite foldl_app. simpl. rewrite (foldl_put_other _ later k Hk).
    unfold put at 1. simpl. by rewrite lookup_insert_eq.
Qed.

Lemma save_config_reads_back_witness :
  let w := world_of {[1 := evening]} (device_saying "ON") in
  let w' := (save_config [("esp32_url", "http://10.0.0.7"); ("name", "esp")] w).2 in
  get_config "esp32_url" w' = (Ret (Some "http://10.0.0.7"), w') /\
  sent (execute_schedule 1 w').2
    = [status_call "http://10.0.0.7";
       strip_call "http://10.0.0.7" (solid 128 17 34 51)].
Proof.
  intros w w'.
  destruct (save_config_reads_back
              [("esp32_url", "http://10.0.0.7"); ("name", "esp")] w)
    as (_ & _ & _ & _ & _ & Hread).
  split.
  - apply (Hread [] "esp32_url" "http://10.0.0.7" [("name", "esp")] eq_refl).
    simpl. intros Hin. apply list_elem_of_singleton in Hin. discriminate Hin.
  - vm_compute. reflexivity.
Defined.

(** X19. [init_db] never overwrites a device URL that is configured: on a
    configuration that has the key it changes nothing at all. On one that
    has not, it sets the default URL and leaves every other key. Running
    it a second time changes nothing, and it never touches the schedules
    or the jobs. *)
Theorem init_db_keeps_configured_url (w : World) :
  (forall u, config w !! "esp32_url" = Some u -> init_db w = (Ret tt, w)) /\
  (config w !! "esp32_url" = None ->
     config (init_db w).2 !! "esp32_url" = Some "http://192.168.1.100" /\
     forall k, k <> "esp32_url" -> config (init_db w).2 !! k = config w !! k) /\
  init_db (init_db w).2 = (Ret tt, (init_db w).2) /\
  schedules (init_db w).2 = schedules w /\ jobs (init_db w).2 = jobs w.
Proof.
  unfold init_db, insert_or_ignore_config.
  destruct (config w !! "esp32_url") as [u|] eqn:Hc; simpl.
  - rewrite Hc. by repeat split.
  - rewrite lookup_insert_eq. split; [done|]. split; [|done].
    intros _. split; [done|]. intros k Hk. by rewrite lookup_insert_ne.
Qed.

Lemma init_db_keeps_configured_url_witness :
  let w := (save_config [("esp32_url", "http://10.0.0.7")]
              (world_of {[1 := evening]} device_down)).2 in
  init_db w = (Ret tt, w) /\
  config (init_db (set_config ∅ w)).2 !! "esp32_url" = Some "http://192.168.1.100".
Proof.
  intros w. split.
  - destruct (init_db_keeps_configured_url w) as [Hkeep _].
    apply (Hkeep "http://10.0.0.7"). vm_compute. reflexivity.
  - destruct (init_db_keeps_configured_url (set_config ∅ w)) as (_ & Hset & _).
    destruct (Hset eq_refl) as [Hurl _]. exact Hurl.
Defined.

(** ** Creating, then deleting *)

(** X20. Deleting a schedule that was just created under a fresh id brings
    the store back to what it was, and the job table too, id by id; this
    holds when the creation scheduled a job and also when it raised
    because the trigger could not be derived. *)
Theorem delete_undoes_create
    (rowid : Z) (data : Fields) (w : World) (name time : string) :
  schedules w !! rowid = None ->
  registered (job_id_of rowid) w = 0%nat ->
  f_name data = Some name ->
  f_time data = Some time ->
  let w1 := (create_schedule rowid data w).2 in
  let w2 := (delete_schedule rowid w1).2 in
  (delete_schedule rowid w1).1 = Ret tt /\
  schedules w2 = schedules w /\
  config w2 = config w /\
  forall jid, jobs_with jid (jobs w2) = jobs_with jid (jobs w).
Proof.
  intros Hfresh Hnone Hn Ht w1 w2. subst w2.
  set (row := row_of_fields rowid name time data).
  assert (schedules w1 = <[rowid := row]> (schedules w) /\ config w1 = config w /\
          (forall jid, jid <> job_id_of rowid ->
             jobs_with jid (jobs w1) = jobs_with jid (jobs w)) /\
          (count_id (job_id_of rowid) (jobs w1) <= 1)%nat) as (Hsch & Hcfg & Hoth & Hown).
  { subst w1. rewrite (create_schedule_named rowid data w name time Hn Ht). fold row.
    destruct (derive_trigger row) as [[names tr]|e] eqn:Hd.
    - destruct (schedule_job_effect row
                  (set_schedules (<[rowid := row]> (schedules w)) w) names tr Hd)
        as (Hret & H1 & H2 & _ & _ & _ & H3 & H4).
      destruct (schedule_job row (set_schedules (<[rowid := row]> (schedules w)) w))
        as [[[]|e] w']; simpl in *; [|discriminate Hret].
      change (s_id row) with rowid in *.
      split; [done|]. split; [done|]. split; [done|].
      rewrite count_id_filter. fold (jobs_with (job_id_of rowid) (jobs w')).
      unfold registered in Hnone. rewrite H4 by lia.
      destruct (truthy _); simpl; lia.
    - rewrite (schedule_job_raises row _ e Hd). simpl.
      split; [done|]. split; [done|]. split; [done|].
      unfold registered in Hnone. lia. }
  destruct (delete_schedule_effect rowid w1) as (l1 & Hdel & Hoth1 & Hc1 & _).
  rewrite Hdel. simpl. split; [done|]. split; [|split; [done|]].
  - rewrite Hsch. by apply delete_insert_id.
  - intros jid. destruct (decide (jid = job_id_of rowid)) as [->|Hne].
    + unfold jobs_with, registered in *.
      rewrite (count_id_0_filter _ l1) by lia.
      by rewrite (count_id_0_filter _ (jobs w)).
    + by rewrite (Hoth1 jid Hne), (Hoth jid Hne).
Qed.

Lemma delete_undoes_create_witness :
  let w := (schedule_job evening (world_of {[1 := evening]} device_down)).2 in
  schedules (delete_schedule 2 (create_schedule 2 morning_fields w).2).2 = schedules w /\
  jobs (delete_schedule 2 (create_schedule 2 morning_fields w).2).2 = jobs w.
Proof.
  intros w.
  destruct (delete_undoes_create 2 morning_fields w "Morning" "08:00"
              eq_refl eq_refl eq_refl eq_refl) as (_ & Hsch & _ & _).
  split; [exact Hsch|]. vm_compute. reflexivity.
Defined.
